(** * napari-affinities: the training/inference generator and the layer sink

    A shallow embedding of [src/napari_affinities/widgets/affinities.py]:
    - [ModelWidget.train_affinities], the generator that multiplexes training,
      snapshot and prediction steps over one open gunpowder pipeline;
    - [ModelWidget.on_yield] and [ModelWidget.add_layers], which deliver what
      the generator yields to the napari viewer.

    NumPy, torch, gunpowder, bioimageio and napari are collaborators of the
    plugin.  What the plugin computes itself (command dispatch, the counter,
    the asserted shape contract, the yielded tuples, the reshape/concatenate
    of layer data) is written out; what it delegates is taken as a parameter
    ([Backend], and the napari functions of section [Sink]).

    Conventions of the embedding:
    - a generator object is its state ([Created], [Suspended] with the locals
      that survive a [yield], [Finished]) and [train_affinities] is one
      [send]; the trace records when the pipeline's scope is entered and left
      and what is yielded or raised;
    - every call into a collaborator that the plugin lets raise returns a
      [result]; an exception raised inside the [with] block unwinds it;
    - [assert] statements are executed (Python without [-O]);
    - line 358 compares the command with the string "snapshot" before line
      361 tests whether it is an array; what that comparison does on an array
      is NumPy's and depends on the release, so it is a collaborator like the
      others ([array_vs_str]): False before NumPy 1.25, and from 1.25 on a
      [ValueError] for every array of more than one element;
    - the specification's error names are the source's exceptions:
      [MissingModel] is the [ValueError] of line 331, [UnsupportedCommand] the
      [Exception] of line 365, [ShapeMismatch] the [AssertionError]s of lines
      393-402. *)

From Stdlib Require Import ZArith Floats.
From stdpp Require Import gmap strings list pretty.

Set Default Proof Using "Type".

(** ** Exceptions

    One constructor per [raise]/[assert] site of the source, plus the errors
    of the Python operations the source relies on. *)
Inductive exn : Type :=
  | ValueError_no_model        (* line 331, "Please load a model ..." *)
  | Exception_unknown_mode     (* line 365, "Uknown mode: ..." *)
  | AssertionError_raw_dims    (* line 393 *)
  | AssertionError_affs_dims   (* line 396 *)
  | AssertionError_channels    (* line 399 *)
  | AssertionError_viewer_axes (* line 288 *)
  | ValueError_unpack          (* a, b, c, *rest = ... / a, b = ... *)
  | ValueError_truth_value     (* bool() of an array of several elements *)
  | ValueError_reshape         (* ndarray.reshape *)
  | ValueError_concatenate     (* np.concatenate *)
  | KeyError (key : string)    (* dict.pop *)
  | IndexError                 (* seq[0] on an empty sequence *)
  | TypeError
  | StopIteration              (* resuming a finished generator *)
  | CollaboratorError (msg : string).

Inductive result (A : Type) : Type :=
  | Ok (a : A)
  | Raise (e : exn).
Arguments Ok {A} a.
Arguments Raise {A} e.

(** ** NumPy arrays: a shape and the elements in C order *)
Record ndarray (A : Type) : Type := NDArray { shape : list nat; values : list A }.
Arguments NDArray {A} shape values.
Arguments shape {A} _.
Arguments values {A} _.

Section Arrays.
Context {A : Type}.

Definition ndim (a : ndarray A) : nat := length (shape a).

Definition product (dims : list nat) : nat := foldr Nat.mul 1 dims.

Definition size (a : ndarray A) : nat := product (shape a).

(** [a.reshape((1, *a.shape))] *)
Definition add_batch_axis (a : ndarray A) : ndarray A :=
  NDArray (1 :: shape a) (values a).

(** [a.squeeze()]: every axis of length one is dropped. *)
Definition squeeze (a : ndarray A) : ndarray A :=
  NDArray (filter (λ n, n ≠ 1) (shape a)) (values a).

(** [a.reshape(-1, *sample_shape)]: the leading length is inferred; NumPy
    raises [ValueError] when it cannot be (the sample has no element, or
    the size is not a multiple of the sample's). *)
Definition reshape_samples (sample_shape : list nat) (a : ndarray A)
  : result (ndarray A) :=
  let p := product sample_shape in
  if decide (p = 0) then Raise ValueError_reshape
  else if decide (size a `mod` p = 0)
       then Ok (NDArray (size a `div` p :: sample_shape) (values a))
       else Raise ValueError_reshape.

(** [np.concatenate([a, b], axis=0)] *)
Definition concatenate (a b : ndarray A) : result (ndarray A) :=
  match shape a, shape b with
  | n1 :: rest1, n2 :: rest2 =>
      if decide (rest1 = rest2)
      then Ok (NDArray (n1 + n2 :: rest1) (values a ++ values b))
      else Raise ValueError_concatenate
  | _, _ => Raise ValueError_concatenate
  end.
End Arrays.

(** [seq.index(x)]: the first position of [x]. *)
Fixpoint index (x : string) (l : list string) : option nat :=
  match l with
  | [] => None
  | y :: l' => if decide (x = y) then Some 0 else S <$> index x l'
  end.

(** [seq[-n:]].  Python reads [-0] as [0], so [seq[-0:]] is the whole
    sequence; for [n] beyond the length the slice is the whole sequence too. *)
Definition slice_last {A} (n : nat) (l : list A) : list A :=
  if decide (n = 0) then l else drop (length l - n) l.

(** ** What travels on the result channel

    A named array is the triple [(data, metadata, layer_type)]; [metadata] is
    a dict with at least the keys "name" and "axes". *)
Inductive meta_val : Type :=
  | MStr (s : string)
  | MAxes (axes : list string)
  | MOffsets (offsets : list (list Z)).   (* the dict {"offsets": offsets} *)

Record named_array (A : Type) : Type := NamedArray {
  na_data : ndarray A;
  na_meta : gmap string meta_val;
  na_type : string
}.
Arguments NamedArray {A} _ _ _.
Arguments na_data {A} _.
Arguments na_meta {A} _.
Arguments na_type {A} _.

(** The tuple the generator yields: [(iteration, loss, *layers)]. *)
Record step_data (S A : Type) : Type := StepData {
  sd_iteration : option nat;
  sd_loss : option S;
  sd_layers : list (named_array A)
}.
Arguments StepData {S A} _ _ _.
Arguments sd_iteration {S A} _.
Arguments sd_loss {S A} _.
Arguments sd_layers {S A} _.

(** [len(step_data)] *)
Definition step_data_len {S A} (d : step_data S A) : nat := 2 + length (sd_layers d).

(** ** The viewer: [ModelWidget.on_yield] and [ModelWidget.add_layers] *)

(** A napari layer: its data, the kind it was added as, and the keyword
    arguments it was created with. *)
Record layer (A : Type) : Type := Layer {
  layer_data : ndarray A;
  layer_type : string;
  layer_kwargs : gmap string meta_val
}.
Arguments Layer {A} _ _ _.
Arguments layer_data {A} _.
Arguments layer_type {A} _.
Arguments layer_kwargs {A} _.

(** [viewer.dims.axis_labels] and [viewer.layers] (looked up by name). *)
Record viewer (A : Type) : Type := Viewer {
  axis_labels : list string;
  layers : gmap string (layer A)
}.
Arguments Viewer {A} _ _.
Arguments axis_labels {A} _.
Arguments layers {A} _.

(** The widget state [on_yield] touches: the two labels and the viewer. *)
Record widget (A : Type) : Type := Widget {
  iterations_widget : string;
  loss_widget : string;
  widget_viewer : viewer A
}.
Arguments Widget {A} _ _ _.
Arguments iterations_widget {A} _.
Arguments loss_widget {A} _.
Arguments widget_viewer {A} _.

Section Sink.
Context {S A : Type}.

(** napari keeps [dims.axis_labels] as long as the viewer has dimensions:
    it may pad or trim the labels when they are assigned and when a layer's
    data changes the number of dimensions.  Both adjustments are napari's
    and are kept abstract. *)
Variable dims_assign : list string → list string → list string.
Variable dims_resize : list string → list nat → list string.
(** [f"{loss}"] *)
Variable format_loss : S → string.

(** [self.viewer.dims.axis_labels = labels] *)
Definition set_axis_labels (labels : list string) (v : viewer A) : viewer A :=
  Viewer (dims_assign (axis_labels v) labels) (layers v).

(** [layer.data = data] on the layer called [name] *)
Definition set_layer_data (name : string) (data : ndarray A) (v : viewer A)
  : viewer A :=
  Viewer (dims_resize (axis_labels v) (shape data))
         (alter (λ l, Layer data (layer_type l) (layer_kwargs l)) name (layers v)).

(** [viewer.add_image(data, name=name, **metadata)] and
    [viewer.add_labels(...)], called only when no layer has that name. *)
Definition add_layer (kind name : string) (data : ndarray A)
    (kwargs : gmap string meta_val) (v : viewer A) : viewer A :=
  Viewer (dims_resize (axis_labels v) (shape data))
         (<[name := Layer data kind kwargs]> (layers v)).

(** What one pass of the loop of [add_layers] leaves behind: the local
    [viewer_axis_labels], the viewer, and the exception if one escaped. *)
Definition sink_outcome : Type := list string * viewer A * option exn.

(** Lines 284-296: the viewer's labels are replaced when they share no name
    with the array's axes. *)
Definition relabel (axes labels : list string) (v : viewer A) : sink_outcome :=
  if decide (Forall (λ a, a ∉ labels) axes) then
    let spatial_axes := filter (λ a, a ∉ ["batch"; "channel"]) axes in
    if decide (length labels ≤ length spatial_axes + 1) then
      let labels' :=
        if decide (length spatial_axes < length labels)
        then "channels" :: spatial_axes else spatial_axes in
      (labels', set_axis_labels labels' v, None)
    else (labels, v, Some AssertionError_viewer_axes)
  else (labels, v, None).

(** Line 299: [data.shape[batch_dim + 1:]] with [batch_dim = -1] when the
    axes have no "batch". *)
Definition sample_shape_of (axes : list string) (data : ndarray A) : list nat :=
  drop (match index "batch" axes with Some k => k + 1 | None => 0 end)
       (shape data).

(** Lines 306-312: both arrays reshaped to [(-1, *sample_shape)], the old
    one first, then concatenated on axis 0. *)
Definition concat_samples (sample_shape : list nat) (old new : ndarray A)
  : result (ndarray A) :=
  match reshape_samples sample_shape old with
  | Raise e => Raise e
  | Ok old' =>
      match reshape_samples sample_shape new with
      | Raise e => Raise e
      | Ok new' => concatenate old' new'
      end
  end.

(** Lines 301-324: update the layer called [name], or create it. *)
Definition upsert (name : string) (axes : list string) (it : named_array A)
    (kwargs : gmap string meta_val) (labels : list string) (v : viewer A)
  : sink_outcome :=
  let sample_shape := sample_shape_of axes (na_data it) in
  match layers v !! name with
  | Some l =>
      match concat_samples sample_shape (layer_data l) (na_data it) with
      | Raise e => (labels, v, Some e)
      | Ok data' =>
          let v1 := set_layer_data name data' v in
          match labels with
          | [] => (labels, v1, Some IndexError)
          | first :: _ =>
              if decide (first ≠ "batch")
              then ("batch" :: labels, set_axis_labels ("batch" :: labels) v1, None)
              else (labels, v1, None)
          end
      end
  | None =>
      if decide (na_type it = "image") then
        (labels, add_layer "image" name (na_data it) kwargs v, None)
      else if decide (na_type it = "labels") then
        (labels, add_layer "labels" name (na_data it) kwargs v, None)
      else (labels, v, None)
  end.

(** The body of the [for] loop of [add_layers] (lines 277-324). *)
Definition add_layers_body (it : named_array A) (labels : list string)
    (v : viewer A) : sink_outcome :=
  match na_meta it !! "name" with
  | None => (labels, v, Some (KeyError "name"))
  | Some (MStr name) =>
      let metadata := delete "name" (na_meta it) in
      match metadata !! "axes" with
      | None => (labels, v, Some (KeyError "axes"))
      | Some (MAxes axes) =>
          let metadata := delete "axes" metadata in
          match relabel axes labels v with
          | (labels1, v1, None) => upsert name axes it metadata labels1 v1
          | failed => failed
          end
      | Some _ => (labels, v, Some TypeError)
      end
  | Some _ => (labels, v, Some TypeError)
  end.

Fixpoint add_layers_loop (its : list (named_array A)) (labels : list string)
    (v : viewer A) : sink_outcome :=
  match its with
  | [] => (labels, v, None)
  | it :: rest =>
      match add_layers_body it labels v with
      | (labels', v', None) => add_layers_loop rest labels' v'
      | failed => failed
      end
  end.

(** [add_layers(self, layers)]: the viewer afterwards and the exception
    that escaped, if any. *)
Definition add_layers (its : list (named_array A)) (v : viewer A)
  : viewer A * option exn :=
  let '(_, v', err) := add_layers_loop its (axis_labels v) v in (v', err).

(** [on_yield(self, step_data)] (lines 266-272). *)
Definition on_yield (d : step_data S A) (w : widget A) : widget A * option exn :=
  let '(v', err) :=
    if decide (0 < length (sd_layers d))
    then add_layers (sd_layers d) (widget_viewer w)
    else (widget_viewer w, None) in
  match err with
  | Some e => (Widget (iterations_widget w) (loss_widget w) v', Some e)
  | None =>
      match sd_iteration d, sd_loss d with
      | Some iteration, Some loss =>
          (Widget (pretty iteration) (format_loss loss) v', None)
      | _, _ => (Widget (iterations_widget w) (loss_widget w) v', None)
      end
  end.
End Sink.


(** ** The collaborators of [train_affinities]

    [W] is the state the collaborators keep between calls (the gunpowder
    pipeline, the torch module and its optimizer, the checkpoint directory,
    the weight source of [self.model]); [T] is a torch tensor, [S] a scalar
    (a Python float or a 0-d tensor), [A] an array element.  A call that can
    raise returns a [result]; a call that changes the state returns the state
    as well, also when it raises.

    [build_pipeline] ([..gp.pipeline]) and [get_torch_module]
    ([..bioimageio.helpers]) are modules of the plugin itself whose sources
    are not at hand; like the libraries they are taken by their interface: a
    scope that is entered and left, and [next(snapshot)] that returns the
    batch arrays and the snapshot arrays. *)
Inductive module_out (T : Type) : Type :=
  | OutSingle (aff_pred : T)
  | OutPair (aff_pred lsd_pred : T).
Arguments OutSingle {T} _.
Arguments OutPair {T} _ _.

Record Backend (S A T W : Type) : Type := {
  (** [float("nan")] *)
  nan : S;
  (** the truth of [mode == "snapshot"] when [mode] is an array of numbers
      (line 358): it is never true; it is False ([Ok ()]) or NumPy raises.
      Before NumPy 1.25 the comparison is the scalar False for every array;
      from 1.25 on it is an array of False, whose truth is False for one
      element and a [ValueError] for more. *)
  array_vs_str : ndarray A → result unit;
  (** lines 339-350: [get_torch_module], [Adam], [torch.device("cuda")],
      [.to(device)], [.train()] *)
  setup : W → result unit * W;
  (** [build_pipeline(raw, gt, mask, lsds, self.model)], entered and left
      through the [with] of line 353 *)
  build_pipeline_enter : bool → W → result unit * W;
  build_pipeline_exit : W → W;
  (** [pipeline.next(snapshot_iteration)] *)
  pipeline_next :
    bool → W → result (list (named_array A) * list (named_array A)) * W;
  (** [torch.as_tensor(array, device=device).float()] *)
  as_tensor : ndarray A → T;
  (** [optimizer.zero_grad()] *)
  zero_grad : W → W;
  (** [torch_module(raw)] *)
  torch_module : T → W → result (module_out T) * W;
  (** [a, b = tensor]: a tensor unpacks along its first axis *)
  tensor_unpack2 : T → result (T * T);
  (** [a * b] on tensors, [MSELoss()(a, b)], [a * b] on losses *)
  tensor_mul : T → T → result T;
  mse_loss : T → T → result S;
  loss_mul : S → S → S;
  (** [loss.backward(); optimizer.step()] *)
  backward_step : S → W → result unit * W;
  (** [t.detach().cpu().numpy()] *)
  to_numpy : T → ndarray A;
  (** lines 368-370: [torch.save] to [checkpoints/{iteration}] and the
      rebinding of the model's weight source *)
  save_checkpoint : nat → W → result unit * W;
  (** lines 381-386: [create_prediction_pipeline], [DataArray(...)] and
      [pp(pred_data)[0].values] *)
  predict : ndarray A → W → result (ndarray A) * W
}.
Arguments nan {S A T W} _.
Arguments array_vs_str {S A T W} _ _.
Arguments setup {S A T W} _ _.
Arguments build_pipeline_enter {S A T W} _ _ _.
Arguments build_pipeline_exit {S A T W} _ _.
Arguments pipeline_next {S A T W} _ _ _.
Arguments as_tensor {S A T W} _ _.
Arguments zero_grad {S A T W} _ _.
Arguments torch_module {S A T W} _ _ _.
Arguments tensor_unpack2 {S A T W} _ _.
Arguments tensor_mul {S A T W} _ _ _.
Arguments mse_loss {S A T W} _ _ _.
Arguments loss_mul {S A T W} _ _ _.
Arguments backward_step {S A T W} _ _ _.
Arguments to_numpy {S A T W} _ _.
Arguments save_checkpoint {S A T W} _ _ _.
Arguments predict {S A T W} _ _ _.

(** ** Computations that thread the collaborators' state and may raise *)
Definition M (W X : Type) : Type := W → result X * W.

Definition ret {W X} (x : X) : M W X := λ w, (Ok x, w).

Definition raise {W X} (e : exn) : M W X := λ w, (Raise e, w).

Definition lift {W X} (r : result X) : M W X := λ w, (r, w).

Definition modify {W} (f : W → W) : M W unit := λ w, (Ok (), f w).

Definition bind {W X Y} (m : M W X) (k : X → M W Y) : M W Y :=
  λ w, match m w with
       | (Ok x, w') => k x w'
       | (Raise e, w') => (Raise e, w')
       end.

Notation "'let!' x ':=' m 'in' k" := (bind m (λ x, k))
  (at level 10, x pattern, m at level 100, k at level 200).

(** ** The generator [train_affinities] *)

(** What [self.model] gives the generator: [config["mws"]["offsets"]]. *)
Record model_spec : Type := Model { offsets : list (list Z) }.

(** The value delivered by [mode = yield ...]. *)
Inductive command (A : Type) : Type :=
  | NoPayload                          (* None *)
  | StrPayload (s : string)
  | ArrayPayload (a : ndarray A)       (* an np.ndarray of numbers *)
  | OtherPayload.                      (* any other object *)
Arguments NoPayload {A}.
Arguments StrPayload {A} _.
Arguments ArrayPayload {A} _.
Arguments OtherPayload {A}.

(** The locals that live across a [yield]: [offsets], [ndim], the argument
    [lsds], [iteration] and [loss].  [spatial_axes] is a function of [ndim]
    and is recomputed where it is used. *)
Record frame (S : Type) : Type := Frame {
  fr_offsets : list (list Z);
  fr_ndim : nat;
  fr_lsds : bool;
  fr_iteration : nat;
  fr_loss : S
}.
Arguments Frame {S} _ _ _ _ _.
Arguments fr_offsets {S} _.
Arguments fr_ndim {S} _.
Arguments fr_lsds {S} _.
Arguments fr_iteration {S} _.
Arguments fr_loss {S} _.

(** [ndim = len(offsets[0])] and
    [spatial_axes = ["time", "z", "y", "x"][-ndim:]] (lines 335-336). *)
Definition ndim_of (offsets : list (list Z)) : result nat :=
  match offsets with
  | [] => Raise IndexError
  | first :: _ => Ok (length first)
  end.

Definition spatial_axes_of (ndim : nat) : list string :=
  slice_last ndim ["time"; "z"; "y"; "x"].

(** Lines 358-365: what the loop decides from [mode]. *)
Inductive step_kind (A : Type) : Type :=
  | TrainStep (snapshot_iteration : bool)   (* predict = False *)
  | PredictStep (pred_data : ndarray A).    (* predict = True *)
Arguments TrainStep {A} _.
Arguments PredictStep {A} _.

(** The test of line 358 comes first: [None] passes it, a string passes it
    when it is "snapshot", and on an array the comparison is evaluated (it
    may raise) before the [isinstance] test of line 361 is reached.  Every
    object that is neither [None], nor that string, nor an array reaches the
    [raise] of line 365. *)
Definition dispatch {S A T W} (B : Backend S A T W) (mode : command A)
  : result (step_kind A) :=
  match mode with
  | NoPayload => Ok (TrainStep false)
  | StrPayload s =>
      if decide (s = "snapshot") then Ok (TrainStep true)
      else Raise Exception_unknown_mode
  | ArrayPayload a =>
      match array_vs_str B a with
      | Ok _ => Ok (PredictStep a)
      | Raise e => Raise e
      end
  | OtherPayload => Raise Exception_unknown_mode
  end.

(** The metadata dicts the generator builds. *)
Definition affinities_meta (offsets : list (list Z)) (spatial_axes : list string)
  : gmap string meta_val :=
  <["name" := MStr "Affinities"]>
    (<["metadata" := MOffsets offsets]>
       (<["axes" := MAxes ("channel" :: spatial_axes)]> ∅)).

Definition sample_meta (name : string) (spatial_axes : list string)
  : gmap string meta_val :=
  <["name" := MStr name]>
    (<["axes" := MAxes ("batch" :: "channel" :: spatial_axes)]> ∅).

Section Generator.
Context {S A T W : Type} (B : Backend S A T W).

(** [loss_func(pred * mask, target * mask)] (lines 437-443, 447-450) *)
Definition masked_loss (pred target mask : T) : result S :=
  match tensor_mul B pred mask with
  | Raise e => Raise e
  | Ok pred_masked =>
      match tensor_mul B target mask with
      | Raise e => Raise e
      | Ok target_masked => mse_loss B pred_masked target_masked
      end
  end.

(** Lines 432-450: the forward pass and the loss; the predictions are kept
    for the snapshot. *)
Definition forward_loss (lsds : bool) (raw aff_target aff_mask : T)
    (lsd_arrays : list T) : M W (S * T * option T) :=
  if lsds then
    match lsd_arrays with
    | [lsd_target; lsd_mask] =>
        let! out := torch_module B raw in
        let! (aff_pred, lsd_pred) :=
          lift (match out with
                | OutPair a l => Ok (a, l)
                | OutSingle t => tensor_unpack2 B t
                end) in
        let! aff_loss := lift (masked_loss aff_pred aff_target aff_mask) in
        let! lsd_loss := lift (masked_loss lsd_pred lsd_target lsd_mask) in
        ret (loss_mul B aff_loss lsd_loss, aff_pred, Some lsd_pred)
    | _ => raise ValueError_unpack
    end
  else
    let! out := torch_module B raw in
    match out with
    | OutSingle aff_pred =>
        let! loss := lift (masked_loss aff_pred aff_target aff_mask) in
        ret (loss, aff_pred, None)
    | OutPair _ _ => raise TypeError
    end.

(** Lines 457-486: the list [pred_arrays] of a snapshot. *)
Definition pred_arrays (spatial_axes : list string) (aff_pred : T)
    (lsd_pred : option T) : list (named_array A) :=
  NamedArray (to_numpy B aff_pred) (sample_meta "sample_aff_pred" spatial_axes) "image"
  :: match lsd_pred with
     | Some l =>
         [NamedArray (to_numpy B l) (sample_meta "sample_lsd_pred" spatial_axes) "image"]
     | None => []
     end.

(** Lines 423-495: one training step, with or without a snapshot. *)
Definition train_step (fr : frame S) (snapshot_iteration : bool)
  : M W (frame S * step_data S A) :=
  let! (arrays, snapshot_arrays) := pipeline_next B snapshot_iteration in
  match map (λ array, as_tensor B (na_data array)) arrays with
  | raw :: aff_target :: aff_mask :: lsd_arrays =>
      let! _ := modify (zero_grad B) in
      let! (loss, aff_pred, lsd_pred) :=
        forward_loss (fr_lsds fr) raw aff_target aff_mask lsd_arrays in
      let! _ := backward_step B loss in
      let iteration := fr_iteration fr + 1 in
      let fr' := Frame (fr_offsets fr) (fr_ndim fr) (fr_lsds fr) iteration loss in
      if snapshot_iteration then
        ret (fr', StepData (Some iteration) (Some loss)
                    (arrays ++ snapshot_arrays
                     ++ pred_arrays (spatial_axes_of (fr_ndim fr)) aff_pred lsd_pred))
      else ret (fr', StepData (Some iteration) (Some loss) [])
  | _ => raise ValueError_unpack
  end.

(** Lines 393-402: the three assertions on the squeezed arrays. *)
Definition check_shapes (fr : frame S) (pred_data affs : ndarray A) : result unit :=
  if decide (ndim pred_data = fr_ndim fr) then
    if decide (ndim affs = fr_ndim fr + 1) then
      match shape affs with
      | channels :: _ =>
          if decide (channels = length (fr_offsets fr)) then Ok ()
          else Raise AssertionError_channels
      | [] => Raise IndexError
      end
    else Raise AssertionError_affs_dims
  else Raise AssertionError_raw_dims.

(** Lines 367-420: one prediction. *)
Definition predict_step (fr : frame S) (pred_data : ndarray A)
  : M W (step_data S A) :=
  let! _ := save_checkpoint B (fr_iteration fr) in
  let pred_data := add_batch_axis pred_data in
  let! affs := predict B pred_data in
  let pred_data := squeeze pred_data in
  let affs := squeeze affs in
  let! _ := lift (check_shapes fr pred_data affs) in
  ret (StepData None None
         [NamedArray affs
            (affinities_meta (fr_offsets fr) (spatial_axes_of (fr_ndim fr)))
            "image"]).

(** Lines 357-495: the body of [while True], from one [yield] to the next. *)
Definition loop_body (fr : frame S) (mode : command A)
  : M W (frame S * step_data S A) :=
  match dispatch B mode with
  | Raise e => raise e
  | Ok (TrainStep snapshot_iteration) => train_step fr snapshot_iteration
  | Ok (PredictStep pred_data) =>
      let! d := predict_step fr pred_data in ret (fr, d)
  end.

(** Lines 329-355: from the call to the first [yield]; the last action is
    entering the pipeline's scope. *)
Definition prologue (model : option model_spec) (lsds : bool) : M W (frame S) :=
  match model with
  | None => raise ValueError_no_model
  | Some m =>
      let! ndim := lift (ndim_of (offsets m)) in
      let! _ := setup B in
      let! _ := build_pipeline_enter B lsds in
      ret (Frame (offsets m) ndim lsds 0 (nan B))
  end.

(** *** The generator object *)
Inductive gen_state : Type :=
  | Created                      (* called, not yet resumed *)
  | Suspended (fr : frame S)     (* waiting at a [yield], inside the [with] *)
  | Finished.

Inductive event : Type :=
  | EvEnter                      (* the pipeline's scope was entered *)
  | EvExit                       (* the pipeline's scope was left *)
  | EvYield (d : step_data S A)
  | EvRaise (e : exn).

Record session : Type := Session {
  gen : gen_state;
  world : W;
  trace : list event
}.

Inductive outcome : Type :=
  | Yielded (d : step_data S A)
  | Raised (e : exn).

(** [gen.send(mode)] on the generator made by
    [train_affinities(raw, gt, mask, lsds)]; [next(gen)] is [send(None)].
    An exception that leaves the body inside the [with] leaves the
    pipeline's scope on its way out. *)
Definition train_affinities (model : option model_spec) (lsds : bool)
    (mode : command A) (s : session) : outcome * session :=
  match gen s with
  | Created =>
      match mode with
      | NoPayload =>
          match prologue model lsds (world s) with
          | (Ok fr, w) =>
              let d := StepData (Some (fr_iteration fr)) (Some (fr_loss fr)) [] in
              (Yielded d, Session (Suspended fr) w (trace s ++ [EvEnter; EvYield d]))
          | (Raise e, w) =>
              (Raised e, Session Finished w (trace s ++ [EvRaise e]))
          end
      | _ => (Raised TypeError, s)
      end
  | Suspended fr =>
      match loop_body fr mode (world s) with
      | (Ok (fr', d), w) =>
          (Yielded d, Session (Suspended fr') w (trace s ++ [EvYield d]))
      | (Raise e, w) =>
          (Raised e,
           Session Finished (build_pipeline_exit B w) (trace s ++ [EvExit; EvRaise e]))
      end
  | Finished => (Raised StopIteration, s)
  end.

(** [gen.close()], which is also what discarding a suspended generator
    does: [GeneratorExit] is raised at the [yield] and unwinds the [with]. *)
Definition close (s : session) : session :=
  match gen s with
  | Suspended _ =>
      Session Finished (build_pipeline_exit B (world s)) (trace s ++ [EvExit])
  | _ => Session Finished (world s) (trace s)
  end.

(** What the owner of the generator can do with it. *)
Inductive op : Type :=
  | Send (mode : command A)
  | Close.

Definition apply_op (model : option model_spec) (lsds : bool) (o : op)
    (s : session) : session :=
  match o with
  | Send mode => snd (train_affinities model lsds mode s)
  | Close => close s
  end.

Definition run (model : option model_spec) (lsds : bool) (ops : list op)
    (s : session) : session :=
  foldl (λ s o, apply_op model lsds o s) s ops.

(** A new generator object: nothing has run yet. *)
Definition new_session (w : W) : session := Session Created w [].

Definition is_enter (e : event) : bool :=
  match e with EvEnter => true | _ => false end.

Definition is_exit (e : event) : bool :=
  match e with EvExit => true | _ => false end.

(** How often the pipeline's scope was entered and left along a trace. *)
Definition count_enter (tr : list event) : nat := length (List.filter is_enter tr).

Definition count_exit (tr : list event) : nat := length (List.filter is_exit tr).
End Generator.

Arguments gen_state : clear implicits.
Arguments event : clear implicits.
Arguments session : clear implicits.
Arguments outcome : clear implicits.
Arguments op : clear implicits.

(** *** Counting the calls on the pipeline's scope

    The collaborators with two counters beside their state: how often
    [build_pipeline(...).__enter__] returned and how often its [__exit__]
    was called.  Every other collaborator acts on the state as before and
    leaves the counters alone. *)
Record scope_calls : Type := ScopeCalls {
  entered : nat;
  exited : nat
}.

Definition counted {W X} (m : M W X) : M (W * scope_calls) X :=
  λ wc, match m wc.1 with (r, w') => (r, (w', wc.2)) end.

Definition counting {S A T W} (B : Backend S A T W)
  : Backend S A T (W * scope_calls) := {|
  nan := nan B;
  array_vs_str := array_vs_str B;
  setup := counted (setup B);
  build_pipeline_enter := λ lsds wc,
    match build_pipeline_enter B lsds wc.1 with
    | (Ok u, w') => (Ok u, (w', ScopeCalls (entered wc.2 + 1) (exited wc.2)))
    | (Raise e, w') => (Raise e, (w', wc.2))
    end;
  build_pipeline_exit := λ wc,
    (build_pipeline_exit B wc.1, ScopeCalls (entered wc.2) (exited wc.2 + 1));
  pipeline_next := λ snapshot_iteration, counted (pipeline_next B snapshot_iteration);
  as_tensor := as_tensor B;
  zero_grad := λ wc, (zero_grad B wc.1, wc.2);
  torch_module := λ raw, counted (torch_module B raw);
  tensor_unpack2 := tensor_unpack2 B;
  tensor_mul := tensor_mul B;
  mse_loss := mse_loss B;
  loss_mul := loss_mul B;
  backward_step := λ loss, counted (backward_step B loss);
  to_numpy := to_numpy B;
  save_checkpoint := λ iteration, counted (save_checkpoint B iteration);
  predict := λ pred_data, counted (predict B pred_data)
|}.

(** The session with counters runs beside the session without: the same
    generator state, the same trace, the same collaborators' state, and each
    counter stands at the number of its events along the trace. *)
Definition counts_calls {S A W} (sc : session S A (W * scope_calls))
    (s : session S A W) : Prop :=
  gen sc = gen s
  ∧ trace sc = trace s
  ∧ (world sc).1 = world s
  ∧ entered (world sc).2 = count_enter (trace s)
  ∧ exited (world sc).2 = count_exit (trace s).

(** ** The widget's buttons and its worker (lines 144-210)

    [train_affinities] is wrapped by napari's [thread_worker]: calling it
    makes a worker, and the widget drives the worker through [start],
    [resume], [pause], [send] and [quit].  The worker is napari's; what the
    widget does with it is recorded as the list of calls it makes. *)
Inductive worker_call (A : Type) : Type :=
  | CallCreate (lsds : bool)         (* self.train_affinities(raw, gt, mask, lsds) *)
  | CallConnect                      (* .yielded.connect(self.on_yield) *)
  | CallStart
  | CallResume
  | CallPause
  | CallSend (mode : command A)
  | CallQuit.
Arguments CallCreate {A} _.
Arguments CallConnect {A}.
Arguments CallStart {A}.
Arguments CallResume {A}.
Arguments CallPause {A}.
Arguments CallSend {A} _.
Arguments CallQuit {A}.

(** The five buttons: enabled or not. *)
Record buttons : Type := Buttons {
  train_button : bool;
  pause_button : bool;
  snapshot_button : bool;
  predict_button : bool;
  save_button : bool
}.

(** [enable_buttons(self, train=False, pause=False, snapshot=False,
    predict=False, save=False)]: every button is set on every call. *)
Definition enable_buttons (train pause snapshot predict save : bool) : buttons :=
  Buttons train pause snapshot predict save.

(** A loaded model: its name and what the generator reads from it. *)
Record loaded_model : Type := LoadedModel {
  model_name : string;
  model_config : model_spec
}.

(** Calling a method on [None]. *)
Inductive ui_error : Type :=
  | AttributeError_None (attribute : string).

Record model_widget (A : Type) : Type := ModelWidget {
  training_generator : option nat;      (* self.__training_generator, a worker
                                           named by its order of creation *)
  workers_made : nat;
  worker_calls : list (nat * worker_call A);   (* oldest first *)
  widget_model : option loaded_model;   (* self.model *)
  model_label : string;
  button_state : buttons;
  train_raw : option (ndarray A);       (* self.train_widget.raw.value: a layer
                                           (its [.data]) or None *)
  train_lsds : bool;                    (* self.train_widget.lsds.value *)
  display : widget A                    (* the two labels and the viewer *)
}.
Arguments ModelWidget {A} _ _ _ _ _ _ _ _ _.
Arguments training_generator {A} _.
Arguments workers_made {A} _.
Arguments worker_calls {A} _.
Arguments widget_model {A} _.
Arguments model_label {A} _.
Arguments button_state {A} _.
Arguments train_raw {A} _.
Arguments train_lsds {A} _.
Arguments display {A} _.

Section Buttons.
Context {A : Type}.
Implicit Types (w : model_widget A).

(** A call on the worker [g]. *)
Definition call (g : nat) (c : worker_call A) w : model_widget A :=
  ModelWidget (training_generator w) (workers_made w)
    (worker_calls w ++ [(g, c)]) (widget_model w) (model_label w)
    (button_state w) (train_raw w) (train_lsds w) (display w).

Definition set_buttons (b : buttons) w : model_widget A :=
  ModelWidget (training_generator w) (workers_made w) (worker_calls w)
    (widget_model w) (model_label w) b (train_raw w) (train_lsds w) (display w).

(** [reset_training_state(self)] (lines 144-149) *)
Definition reset_training_state w : model_widget A :=
  let w1 :=
    match training_generator w with
    | Some g => call g CallQuit w
    | None => w
    end in
  ModelWidget None (workers_made w1) (worker_calls w1) (widget_model w1)
    (model_label w1) (button_state w1) (train_raw w1) (train_lsds w1)
    (Widget "None" "nan" (widget_viewer (display w1))).

(** The setter of [model] (lines 165-173) *)
Definition set_model (new_model : option loaded_model) w : model_widget A :=
  let w1 := reset_training_state w in
  match new_model with
  | Some m =>
      ModelWidget (training_generator w1) (workers_made w1) (worker_calls w1)
        (Some m) (model_name m) (enable_buttons true false true true true)
        (train_raw w1) (train_lsds w1) (display w1)
  | None =>
      ModelWidget (training_generator w1) (workers_made w1) (worker_calls w1)
        None "None" (button_state w1) (train_raw w1) (train_lsds w1) (display w1)
  end.

(** [start_training_loop(self)] (lines 175-183) *)
Definition start_training_loop w : model_widget A :=
  let g := workers_made w in
  ModelWidget (Some g) (g + 1)
    (worker_calls w ++ [(g, CallCreate (train_lsds w)); (g, CallConnect); (g, CallStart)])
    (widget_model w) (model_label w) (button_state w) (train_raw w)
    (train_lsds w) (display w).

(** [train(self)] (lines 185-190) *)
Definition train w : model_widget A :=
  let w1 :=
    match training_generator w with
    | None => start_training_loop w
    | Some g => call g CallResume w
    end in
  set_buttons (enable_buttons false true true true true) w1.

(** [pause_training(self)] (lines 192-194) *)
Definition pause_training w : model_widget A * option ui_error :=
  match training_generator w with
  | None => (w, Some (AttributeError_None "pause"))
  | Some g =>
      (set_buttons (enable_buttons true false true true true) (call g CallPause w),
       None)
  end.

(** [snapshot(self)] (lines 196-201) *)
Definition snapshot w : model_widget A * option ui_error :=
  let w1 := match training_generator w with None => train w | Some _ => w end in
  match training_generator w1 with
  | None => (w1, Some (AttributeError_None "send"))
  | Some g =>
      (set_buttons (enable_buttons false true true true true)
         (call g CallResume (call g (CallSend (StrPayload "snapshot")) w1)),
       None)
  end.

(** [predict(self)] (lines 203-210): the array sent is the data of the raw
    layer chosen in the training widget. *)
Definition predict_clicked w : model_widget A * option ui_error :=
  let w1 := match training_generator w with None => train w | Some _ => w end in
  match training_generator w1 with
  | None => (w1, Some (AttributeError_None "send"))
  | Some g =>
      match train_raw w1 with
      | None => (w1, Some (AttributeError_None "data"))
      | Some data =>
          (set_buttons (enable_buttons false true true true true)
             (call g CallResume (call g (CallSend (ArrayPayload data)) w1)),
           None)
      end
  end.

(** What the user can do.  A button that is not enabled does not call its
    handler; loading a model assigns [self.model]; the raw layer and the
    shape-descriptor box of the training widget can be changed at will. *)
Inductive ui_event : Type :=
  | ClickTrain
  | ClickPause
  | ClickSnapshot
  | ClickPredict
  | LoadModel (m : loaded_model)
  | ChooseRaw (raw : option (ndarray A))
  | TickLsds (lsds : bool).

Definition handle (ev : ui_event) w : model_widget A * option ui_error :=
  match ev with
  | ClickTrain =>
      if train_button (button_state w) then (train w, None) else (w, None)
  | ClickPause =>
      if pause_button (button_state w) then pause_training w else (w, None)
  | ClickSnapshot =>
      if snapshot_button (button_state w) then snapshot w else (w, None)
  | ClickPredict =>
      if predict_button (button_state w) then predict_clicked w else (w, None)
  | LoadModel m => (set_model (Some m) w, None)
  | ChooseRaw raw =>
      (ModelWidget (training_generator w) (workers_made w) (worker_calls w)
         (widget_model w) (model_label w) (button_state w) raw (train_lsds w)
         (display w), None)
  | TickLsds lsds =>
      (ModelWidget (training_generator w) (workers_made w) (worker_calls w)
         (widget_model w) (model_label w) (button_state w) (train_raw w) lsds
         (display w), None)
  end.

(** A session at the widget: the state after the events and the errors the
    handlers raised on the way, oldest first. *)
Fixpoint handle_all (evs : list ui_event) w : model_widget A * list ui_error :=
  match evs with
  | [] => (w, [])
  | ev :: rest =>
      let '(w1, err) := handle ev w in
      let '(w2, errs) := handle_all rest w1 in
      (w2, match err with Some e => e :: errs | None => errs end)
  end.

(** The calls made on the worker [g], in order. *)
Definition calls_on (g : nat) (calls : list (nat * worker_call A))
  : list (worker_call A) :=
  omap (λ gc, if decide (gc.1 = g) then Some gc.2 else None) calls.
End Buttons.
Arguments ui_event : clear implicits.

(** ** More words for what the code is shown to do *)

(** A command that makes the loop train: no payload, or "snapshot". *)
Definition is_training_op {A} (o : op A) : bool :=
  match o with
  | Send NoPayload => true
  | Send (StrPayload s) => bool_decide (s = "snapshot")
  | _ => false
  end.

(** An array holds as many elements as its shape says. *)
Definition well_formed {A} (a : ndarray A) : Prop := length (values a) = size a.

(** The name under which a named array is delivered, if it has one. *)
Definition delivered_name {A} (it : named_array A) : option string :=
  match na_meta it !! "name" with
  | Some (MStr name) => Some name
  | _ => None
  end.

(** What a layer can become: it keeps its kind and its keyword arguments. *)
Definition same_layer_but_data {A} (l l' : layer A) : Prop :=
  layer_type l' = layer_type l ∧ layer_kwargs l' = layer_kwargs l.

(** The widget once a model is loaded: Snapshot, Predict and Save are
    enabled, exactly one of Train and Pause is, and Pause is enabled only
    when there is a worker to pause. *)
Definition ready {A} (w : model_widget A) : Prop :=
  is_Some (widget_model w)
  ∧ snapshot_button (button_state w) = true
  ∧ predict_button (button_state w) = true
  ∧ save_button (button_state w) = true
  ∧ train_button (button_state w) = negb (pause_button (button_state w))
  ∧ (pause_button (button_state w) = true → is_Some (training_generator w)).

(** The calls that drive a started worker. *)
Definition driving {A} (c : worker_call A) : bool :=
  match c with
  | CallResume | CallPause | CallSend _ => true
  | _ => false
  end.

(** The life of one worker as the widget shapes it: made, connected and
    started once, then driven, and quit at the end unless it is still the
    current one. *)
Definition worker_life {A} (current : bool) (calls : list (worker_call A)) : Prop :=
  ∃ lsds middle,
    calls = CallCreate lsds :: CallConnect :: CallStart :: middle
            ++ (if current then [] else [CallQuit])
    ∧ forallb driving middle = true.

Definition calls_in_order {A} (w : model_widget A) : Prop :=
  (∀ g, training_generator w = Some g → g < workers_made w)
  ∧ (∀ g, g < workers_made w →
       worker_life (bool_decide (training_generator w = Some g))
         (calls_on g (worker_calls w)))
  ∧ (∀ g, workers_made w ≤ g → calls_on g (worker_calls w) = []).

(** A widget on which no worker has been made and no model loaded. *)
Definition blank_widget {A} (raw : option (ndarray A)) (lsds : bool)
    (shown : widget A) : model_widget A :=
  ModelWidget None 0 [] None "None" (enable_buttons false false false false false)
    raw lsds shown.

(** ** Words of the specification *)

(** "The last [n] entries" of a sequence, as the specification words it. *)
Definition last_entries {X} (n : nat) (l : list X) : list X := drop (length l - n) l.

(** The three assertion failures of a prediction (the specification's
    [ShapeMismatch]). *)
Definition shape_mismatch (e : exn) : Prop :=
  e = AssertionError_raw_dims ∨ e = AssertionError_affs_dims
  ∨ e = AssertionError_channels.

(** A command outside the three recognised shapes. *)
Definition unsupported {A} (mode : command A) : Prop :=
  mode ≠ NoPayload ∧ mode ≠ StrPayload "snapshot" ∧ ∀ a, mode ≠ ArrayPayload a.

(** The pipeline's scope along the life of a generator: never entered
    before the first resumption, entered once and not left while the
    generator is suspended, and left as often as it was entered (at most
    once) when the generator is finished. *)
Definition scope_discipline {S A W} (s : session S A W) : Prop :=
  match gen s with
  | Created => count_enter (trace s) = 0 ∧ count_exit (trace s) = 0
  | Suspended _ => count_enter (trace s) = 1 ∧ count_exit (trace s) = 0
  | Finished =>
      count_exit (trace s) = count_enter (trace s) ∧ count_enter (trace s) ≤ 1
  end.

(** The progress pairs [(1, l1), (2, l2), ...] a run of plain training steps
    yields after the counter stood at [start]. *)
Definition progress_events {S A} (start : nat) (losses : list S) : list (event S A) :=
  imap (λ k loss, EvYield (StepData (Some (start + k + 1)) (Some loss) [])) losses.

(** ** A small concrete world

    Collaborators simple enough to run: arrays of IEEE floats, tensors that
    are arrays, a pipeline that serves the same two-pixel batch every time and
    a network with fixed predictions.  The affinity prediction is off by 2 on
    one of two pixels and the shape-descriptor prediction by 3 on one of
    three, so the two masked losses are 2.0 and 3.0. *)
Module Demo.

Definition tensor : Type := ndarray float.

Record demo_world : Type := DemoWorld {
  dw_lsds : bool;        (* what the pipeline was built for *)
  dw_batches : nat;      (* batches served *)
  dw_updates : nat;      (* optimizer steps taken *)
  dw_open : bool         (* the pipeline's scope is open *)
}.

Definition vec (xs : list float) : tensor := NDArray [1; length xs] xs.

Definition batch_item (name : string) (xs : list float) : named_array float :=
  NamedArray (NDArray [1; length xs] xs)
    (<["name" := MStr name]> (<["axes" := MAxes ["batch"; "x"]]> ∅)) "image".

Definition batch (lsds : bool) : list (named_array float) :=
  [batch_item "raw" [1; 1]; batch_item "aff_target" [0; 0];
   batch_item "aff_mask" [1; 1]]%float
  ++ (if lsds
      then [batch_item "lsd_target" [0; 0; 0]; batch_item "lsd_mask" [1; 1; 1]]%float
      else []).

Definition mul_elementwise (a b : tensor) : result tensor :=
  if decide (shape a = shape b)
  then Ok (NDArray (shape a) (zip_with PrimFloat.mul (values a) (values b)))
  else Raise (CollaboratorError "shapes differ").

Definition sum_floats (xs : list float) : float := foldr PrimFloat.add 0%float xs.

Definition float_of_nat (n : nat) : float := Nat.iter n (λ x, x + 1)%float 0%float.

Definition mean_squared_error (a b : tensor) : result float :=
  if decide (shape a = shape b)
  then Ok (sum_floats (zip_with (λ x y, (x - y) * (x - y))%float (values a) (values b))
           / float_of_nat (length (values a)))%float
  else Raise (CollaboratorError "shapes differ").

Definition split_first_axis (t : tensor) : result (tensor * tensor) :=
  match shape t with
  | 2 :: rest =>
      let n := product rest in
      Ok (NDArray rest (take n (values t)), NDArray rest (drop n (values t)))
  | _ => Raise ValueError_unpack
  end.

(** The prediction pipeline of a two-offset model: the channel axis of the
    input becomes two affinity channels. *)
Definition predict_zeros (a : ndarray float) : result (ndarray float) :=
  match shape a with
  | b :: _ :: rest => Ok (NDArray (b :: 2 :: rest) (replicate (b * 2 * product rest) 0%float))
  | _ => Raise (CollaboratorError "input has no channel axis")
  end.

Definition backend : Backend float float tensor demo_world := {|
  nan := PrimFloat.nan;
  array_vs_str := λ a, Ok ();        (* NumPy before 1.25 *)
  setup := λ w, (Ok (), w);
  build_pipeline_enter := λ lsds w,
    (Ok (), DemoWorld lsds (dw_batches w) (dw_updates w) true);
  build_pipeline_exit := λ w,
    DemoWorld (dw_lsds w) (dw_batches w) (dw_updates w) false;
  pipeline_next := λ snapshot w,
    (Ok (batch (dw_lsds w),
         if snapshot then [batch_item "gt" [0; 1]%float] else []),
     DemoWorld (dw_lsds w) (dw_batches w + 1) (dw_updates w) (dw_open w));
  as_tensor := λ a, a;
  zero_grad := λ w, w;
  torch_module := λ raw w,
    (Ok (if dw_lsds w
         then OutPair (vec [2; 0]%float) (vec [3; 0; 0]%float)
         else OutSingle (vec [2; 0]%float)), w);
  tensor_unpack2 := split_first_axis;
  tensor_mul := mul_elementwise;
  mse_loss := mean_squared_error;
  loss_mul := PrimFloat.mul;
  backward_step := λ loss w,
    (Ok (), DemoWorld (dw_lsds w) (dw_batches w) (dw_updates w + 1) (dw_open w));
  to_numpy := λ t, t;
  save_checkpoint := λ iteration w, (Ok (), w);
  predict := λ a w, (predict_zeros a, w)
|}.

(** A model with two offsets in two dimensions. *)
Definition model : model_spec := Model [[-1; 0]; [0; -1]]%Z.

Definition world0 : demo_world := DemoWorld false 0 0 false.

(** napari as far as the sink needs it: assigned labels are kept, and a
    change of data leaves them alone. *)
Definition dims_assign (old new : list string) : list string := new.
Definition dims_resize (labels : list string) (shp : list nat) : list string := labels.
Definition format_loss (x : float) : string := "loss".

Definition image (name : string) (axes : list string) (shp : list nat)
    (xs : list float) : named_array float :=
  NamedArray (NDArray shp xs)
    (<["name" := MStr name]> (<["axes" := MAxes axes]> ∅)) "image".

(** The generator of the two-offset model, suspended at its first [yield]. *)
Definition frame0 (lsds : bool) : frame float :=
  Frame (offsets model) 2 lsds 0 PrimFloat.nan.

Definition open_world (lsds : bool) : demo_world := DemoWorld lsds 0 0 true.

Definition primed (lsds : bool) : session float float demo_world :=
  Session (Suspended (frame0 lsds)) (open_world lsds) [].

(** A 2x2 image with its channel axis, as the plugin expects it; the same
    pixels as a stack of two images; and what the pipeline predicts. *)
Definition raw_image : ndarray float := NDArray [1; 2; 2] [1; 2; 3; 4]%float.
Definition raw_stack : ndarray float :=
  NDArray [2; 2; 2] [1; 2; 3; 4; 5; 6; 7; 8]%float.
Definition zero_affs : ndarray float := NDArray [1; 2; 2; 2] (replicate 8 0%float).

(** A new two-dimensional viewer. *)
Definition empty_viewer : viewer float := Viewer ["0"; "1"] ∅.

(** A viewer that shows a layer "X" of two samples, and one whose layer "X"
    holds a single row of three pixels. *)
Definition viewer_two_samples : viewer float :=
  Viewer ["batch"; "y"; "x"]
    {["X" := Layer (NDArray [2; 1; 2] [1; 2; 3; 4]%float) "image" ∅]}.

Definition viewer_odd_row : viewer float :=
  Viewer ["y"; "x"] {["X" := Layer (NDArray [1; 3] [1; 2; 3]%float) "image" ∅]}.

Definition three_samples : named_array float :=
  image "X" ["batch"; "y"; "x"] [3; 1; 2] [5; 6; 7; 8; 9; 10]%float.

Definition two_samples : named_array float :=
  image "X" ["batch"; "y"; "x"] [2; 1; 2] [4; 5; 6; 7]%float.

(** A pipeline that serves two arrays only. *)
Definition starved_backend : Backend float float tensor demo_world := {|
  nan := PrimFloat.nan;
  array_vs_str := array_vs_str backend;
  setup := setup backend;
  build_pipeline_enter := build_pipeline_enter backend;
  build_pipeline_exit := build_pipeline_exit backend;
  pipeline_next := λ snapshot w,
    (Ok (take 2 (batch (dw_lsds w)), []),
     DemoWorld (dw_lsds w) (dw_batches w + 1) (dw_updates w) (dw_open w));
  as_tensor := as_tensor backend;
  zero_grad := zero_grad backend;
  torch_module := torch_module backend;
  tensor_unpack2 := tensor_unpack2 backend;
  tensor_mul := tensor_mul backend;
  mse_loss := mse_loss backend;
  loss_mul := loss_mul backend;
  backward_step := backward_step backend;
  to_numpy := to_numpy backend;
  save_checkpoint := save_checkpoint backend;
  predict := predict backend
|}.

(** The same collaborators with NumPy 1.25 or later: the truth of an array
    of several elements is a [ValueError]. *)
Definition backend_numpy_1_25 : Backend float float tensor demo_world := {|
  nan := PrimFloat.nan;
  array_vs_str := λ a,
    if decide (size a ≤ 1) then Ok () else Raise ValueError_truth_value;
  setup := setup backend;
  build_pipeline_enter := build_pipeline_enter backend;
  build_pipeline_exit := build_pipeline_exit backend;
  pipeline_next := pipeline_next backend;
  as_tensor := as_tensor backend;
  zero_grad := zero_grad backend;
  torch_module := torch_module backend;
  tensor_unpack2 := tensor_unpack2 backend;
  tensor_mul := tensor_mul backend;
  mse_loss := mse_loss backend;
  loss_mul := loss_mul backend;
  backward_step := backward_step backend;
  to_numpy := to_numpy backend;
  save_checkpoint := save_checkpoint backend;
  predict := predict backend
|}.

(** A model whose two offsets have no component, suspended at its first
    [yield], and an array of one pixel. *)
Definition flat_frame : frame float := Frame [[]; []] 0 false 0 PrimFloat.nan.

Definition one_pixel : ndarray float := NDArray [1] [1%float].

(** An array that was given no name. *)
Definition nameless : named_array float :=
  NamedArray (NDArray [2] [0; 1]%float) (<["axes" := MAxes ["x"]]> ∅) "image".

(** A viewer that already shows one prediction of the two-offset model, and
    the same prediction delivered again. *)
Definition affinities_item : named_array float :=
  NamedArray (NDArray [2; 2; 2] (replicate 8 0%float))
    (affinities_meta (offsets model) ["y"; "x"]) "image".

Definition viewer_one_prediction : viewer float :=
  Viewer ["channels"; "y"; "x"]
    {["Affinities" := Layer (NDArray [2; 2; 2] (replicate 8 1%float)) "image" ∅]}.

(** The widget before anything was loaded, a model to load, and an
    afternoon at the buttons. *)
Definition blank : model_widget float :=
  blank_widget (Some raw_image) false (Widget "None" "nan" empty_viewer).

Definition two_offsets : loaded_model := LoadedModel "two offsets" model.

Definition clicks : list (ui_event float) :=
  [LoadModel two_offsets; ClickPause; ClickTrain; ClickPause; ClickSnapshot;
   ChooseRaw None; ClickPredict; LoadModel two_offsets; ClickPredict;
   ChooseRaw (Some raw_image); ClickPredict].

End Demo.

(** * Facts about the generator *)

Lemma bind_Ok {W X Y} (m : M W X) (k : X → M W Y) w y w' :
  bind m k w = (Ok y, w') → ∃ x w1, m w = (Ok x, w1) ∧ k x w1 = (Ok y, w').
Proof.
  unfold bind. destruct (m w) as [[x|e] w1]; [eauto | discriminate].
Qed.

Lemma bind_Ok_intro {W X Y} (m : M W X) (k : X → M W Y) w x w1 :
  m w = (Ok x, w1) → bind m k w = k x w1.
Proof. unfold bind. by intros ->. Qed.

Lemma bind_Raise_intro {W X Y} (m : M W X) (k : X → M W Y) w e w1 :
  m w = (Raise e, w1) → bind m k w = (Raise e, w1).
Proof. unfold bind. by intros ->. Qed.

(** Unfolds one layer of a monadic equation that ended in [Ok]. *)
Tactic Notation "bind_inv" hyp(H) "as" simple_intropattern(x)
    simple_intropattern(w) simple_intropattern(Hm) :=
  apply bind_Ok in H as (x & w & Hm & H).

Section GeneratorFacts.
Context {S A T W : Type} (B : Backend S A T W).
Implicit Types (fr : frame S) (w : W) (d : step_data S A)
  (s : session S A W) (mode : command A).

Lemma dispatch_TrainStep mode (flag : bool) :
  dispatch B mode = Ok (TrainStep flag) →
  (mode = NoPayload ∧ flag = false) ∨ (mode = StrPayload "snapshot" ∧ flag = true).
Proof.
  destruct mode as [|str|a|]; simpl; try discriminate.
  - intros [= <-]. by left.
  - case_decide; [|discriminate]. intros [= <-]. subst. by right.
  - by destruct (array_vs_str B a).
Qed.

Lemma dispatch_PredictStep mode (a : ndarray A) :
  dispatch B mode = Ok (PredictStep a) → mode = ArrayPayload a.
Proof.
  destruct mode as [|str|a'|]; simpl; try discriminate.
  - by case_decide.
  - destruct (array_vs_str B a'); [|discriminate]. by intros [= <-].
Qed.

Lemma masked_loss_Ok pred target mask loss :
  masked_loss B pred target mask = Ok loss ↔
  ∃ pred_masked target_masked,
    tensor_mul B pred mask = Ok pred_masked
    ∧ tensor_mul B target mask = Ok target_masked
    ∧ mse_loss B pred_masked target_masked = Ok loss.
Proof.
  unfold masked_loss. split.
  - destruct (tensor_mul B pred mask) as [pm|]; [|discriminate].
    destruct (tensor_mul B target mask) as [tm|]; [|discriminate]. eauto.
  - intros (pm & tm & -> & -> & ->). done.
Qed.

(** What a training step that reached its [yield] went through. *)
Lemma train_step_Ok fr snapshot w fr' d w' :
  train_step B fr snapshot w = (Ok (fr', d), w') →
  ∃ arrays snapshot_arrays w1 raw aff_target aff_mask lsd_arrays
    loss aff_pred lsd_pred w2,
    pipeline_next B snapshot w = (Ok (arrays, snapshot_arrays), w1)
    ∧ map (λ array, as_tensor B (na_data array)) arrays
      = raw :: aff_target :: aff_mask :: lsd_arrays
    ∧ forward_loss B (fr_lsds fr) raw aff_target aff_mask lsd_arrays (zero_grad B w1)
      = (Ok (loss, aff_pred, lsd_pred), w2)
    ∧ backward_step B loss w2 = (Ok (), w')
    ∧ fr' = Frame (fr_offsets fr) (fr_ndim fr) (fr_lsds fr) (fr_iteration fr + 1) loss
    ∧ d = StepData (Some (fr_iteration fr + 1)) (Some loss)
            (if snapshot
             then arrays ++ snapshot_arrays
                  ++ pred_arrays B (spatial_axes_of (fr_ndim fr)) aff_pred lsd_pred
             else []).
Proof.
  unfold train_step. intros H.
  bind_inv H as [arrays snapshot_arrays] w1 Hnext.
  destruct (map _ arrays) as [|raw [|aff_target [|aff_mask lsd_arrays]]] eqn:Hmap;
    try discriminate.
  bind_inv H as [] w1' Hzero. unfold modify in Hzero. simplify_eq.
  bind_inv H as [[loss aff_pred] lsd_pred] w2 Hfwd.
  bind_inv H as [] w3 Hback.
  exists arrays, snapshot_arrays, w1, raw, aff_target, aff_mask, lsd_arrays,
    loss, aff_pred, lsd_pred, w2.
  destruct snapshot; unfold ret in H; simplify_eq; done.
Qed.

(** The converse: when every collaborator answers, the step yields. *)
Lemma train_step_intro fr snapshot w arrays snapshot_arrays w1 raw aff_target
    aff_mask lsd_arrays loss aff_pred lsd_pred w2 w' :
  pipeline_next B snapshot w = (Ok (arrays, snapshot_arrays), w1) →
  map (λ array, as_tensor B (na_data array)) arrays
    = raw :: aff_target :: aff_mask :: lsd_arrays →
  forward_loss B (fr_lsds fr) raw aff_target aff_mask lsd_arrays (zero_grad B w1)
    = (Ok (loss, aff_pred, lsd_pred), w2) →
  backward_step B loss w2 = (Ok (), w') →
  train_step B fr snapshot w =
    (Ok (Frame (fr_offsets fr) (fr_ndim fr) (fr_lsds fr) (fr_iteration fr + 1) loss,
         StepData (Some (fr_iteration fr + 1)) (Some loss)
           (if snapshot
            then arrays ++ snapshot_arrays
                 ++ pred_arrays B (spatial_axes_of (fr_ndim fr)) aff_pred lsd_pred
            else [])), w').
Proof.
  intros Hnext Hmap Hfwd Hback. unfold train_step.
  rewrite (bind_Ok_intro _ _ _ _ _ Hnext). rewrite Hmap.
  unfold modify at 1. unfold bind at 1.
  rewrite (bind_Ok_intro _ _ _ _ _ Hfwd).
  rewrite (bind_Ok_intro _ _ _ _ _ Hback).
  by destruct snapshot.
Qed.

(** The forward pass with shape descriptors. *)
Lemma forward_loss_lsds_Ok raw aff_target aff_mask lsd_arrays w loss aff_pred
    lsd_pred w' :
  forward_loss B true raw aff_target aff_mask lsd_arrays w
    = (Ok (loss, aff_pred, lsd_pred), w') →
  ∃ lsd_target lsd_mask out lsd aff_loss lsd_loss,
    lsd_arrays = [lsd_target; lsd_mask]
    ∧ torch_module B raw w = (Ok out, w')
    ∧ match out with
      | OutPair a l => Ok (a, l)
      | OutSingle t => tensor_unpack2 B t
      end = Ok (aff_pred, lsd)
    ∧ lsd_pred = Some lsd
    ∧ masked_loss B aff_pred aff_target aff_mask = Ok aff_loss
    ∧ masked_loss B lsd lsd_target lsd_mask = Ok lsd_loss
    ∧ loss = loss_mul B aff_loss lsd_loss.
Proof.
  unfold forward_loss. intros H.
  destruct lsd_arrays as [|lsd_target [|lsd_mask [|]]]; try discriminate.
  bind_inv H as out w1 Hout.
  bind_inv H as [a l] w2 Hunpack. unfold lift in Hunpack.
  bind_inv H as aff_loss w3 Haff. unfold lift in Haff.
  bind_inv H as lsd_loss w4 Hlsd. unfold lift in Hlsd.
  unfold ret in H. simplify_eq.
  exists lsd_target, lsd_mask, out, l, aff_loss, lsd_loss. done.
Qed.

(** Without shape descriptors the stored prediction is the affinity one
    alone; with them both are kept. *)
Lemma forward_loss_plain_Ok raw aff_target aff_mask lsd_arrays w loss aff_pred
    lsd_pred w' :
  forward_loss B false raw aff_target aff_mask lsd_arrays w
    = (Ok (loss, aff_pred, lsd_pred), w') →
  torch_module B raw w = (Ok (OutSingle aff_pred), w')
  ∧ lsd_pred = None
  ∧ masked_loss B aff_pred aff_target aff_mask = Ok loss.
Proof.
  unfold forward_loss. intros H. bind_inv H as out w1 Hout.
  destruct out as [t|]; [|discriminate].
  bind_inv H as l w2 Hl. unfold lift in Hl. unfold ret in H. by simplify_eq.
Qed.

Lemma sample_meta_lookup name spatial_axes :
  sample_meta name spatial_axes !! "name" = Some (MStr name)
  ∧ sample_meta name spatial_axes !! "axes"
    = Some (MAxes ("batch" :: "channel" :: spatial_axes))
  ∧ ∀ k, k ≠ "name" → k ≠ "axes" → sample_meta name spatial_axes !! k = None.
Proof.
  unfold sample_meta. split_and!; [done | done |].
  intros k ? ?. by rewrite !lookup_insert_ne.
Qed.

Lemma forward_loss_lsd_pred lsds raw aff_target aff_mask lsd_arrays w loss
    aff_pred lsd_pred w' :
  forward_loss B lsds raw aff_target aff_mask lsd_arrays w
    = (Ok (loss, aff_pred, lsd_pred), w') →
  if lsds then is_Some lsd_pred else lsd_pred = None.
Proof.
  destruct lsds.
  - intros H. apply forward_loss_lsds_Ok in H as (?&?&?&?&?&?&?&?&?&->&?). eauto.
  - unfold forward_loss. intros H. bind_inv H as out w1 Hout.
    destruct out; [|discriminate].
    bind_inv H as l w2 Hl. unfold ret in H. by simplify_eq.
Qed.
End GeneratorFacts.

Section GeneratorClaims.
Context {S A T W : Type} (B : Backend S A T W).
Implicit Types (fr : frame S) (w : W) (d : step_data S A)
  (s : session S A W) (mode : command A) (tr : list (event S A)).

Lemma slice_last_entries {X} (n : nat) (l : list X) :
  1 ≤ n → slice_last n l = last_entries n l.
Proof. unfold slice_last, last_entries. intros. case_decide; [lia | done]. Qed.

Lemma dispatch_unsupported mode :
  unsupported mode → dispatch B mode = Raise Exception_unknown_mode.
Proof.
  unfold unsupported. intros (Hnone & Hsnap & Harray).
  destruct mode as [|str|a|]; simpl; [done | | by destruct (Harray a) | done].
  case_decide; [by subst|done].
Qed.

Lemma dispatch_array (a : ndarray A) :
  array_vs_str B a = Ok () → dispatch B (ArrayPayload a) = Ok (PredictStep a).
Proof. simpl. by intros ->. Qed.

(** A prediction whose collaborators answered stands or falls with the
    three assertions. *)
Lemma predict_step_eval fr pred_data w w1 affs w2 :
  save_checkpoint B (fr_iteration fr) w = (Ok (), w1) →
  predict B (add_batch_axis pred_data) w1 = (Ok affs, w2) →
  predict_step B fr pred_data w =
    (match check_shapes fr (squeeze (add_batch_axis pred_data)) (squeeze affs) with
     | Ok _ =>
         Ok (StepData None None
               [NamedArray (squeeze affs)
                  (affinities_meta (fr_offsets fr) (spatial_axes_of (fr_ndim fr)))
                  "image"])
     | Raise e => Raise e
     end, w2).
Proof.
  intros Hsave Hpred. unfold predict_step.
  rewrite (bind_Ok_intro _ _ _ _ _ Hsave), (bind_Ok_intro _ _ _ _ _ Hpred).
  unfold bind, lift, ret. by destruct (check_shapes _ _ _) as [[]|].
Qed.

Lemma check_shapes_Ok fr (pred_data affs : ndarray A) :
  check_shapes fr pred_data affs = Ok () ↔
  ndim pred_data = fr_ndim fr ∧ ndim affs = fr_ndim fr + 1
  ∧ head (shape affs) = Some (length (fr_offsets fr)).
Proof.
  unfold check_shapes, ndim.
  destruct (shape affs) as [|c rest] eqn:E; simpl; repeat case_decide;
    (split; [try discriminate; try (intros _; split_and!; by f_equal)
            | intros (? & ? & ?); simplify_eq; try done; lia]).
Qed.

Lemma check_shapes_Raise fr (pred_data affs : ndarray A) e :
  check_shapes fr pred_data affs = Raise e → shape_mismatch e.
Proof.
  unfold check_shapes, ndim, shape_mismatch.
  repeat case_decide; destruct (shape affs) as [|c rest] eqn:E; simpl in *;
    try case_decide; intros; simplify_eq; auto; lia.
Qed.

Lemma affinities_meta_lookups offsets spatial_axes :
  affinities_meta offsets spatial_axes !! "name" = Some (MStr "Affinities")
  ∧ affinities_meta offsets spatial_axes !! "metadata" = Some (MOffsets offsets)
  ∧ affinities_meta offsets spatial_axes !! "axes"
    = Some (MAxes ("channel" :: spatial_axes)).
Proof. unfold affinities_meta. split_and!; by simplify_map_eq. Qed.

Lemma sample_meta_lookups name spatial_axes :
  sample_meta name spatial_axes !! "name" = Some (MStr name)
  ∧ sample_meta name spatial_axes !! "axes"
    = Some (MAxes ("batch" :: "channel" :: spatial_axes)).
Proof. unfold sample_meta. split_and!; by simplify_map_eq. Qed.

(** The classification of lines 358-365, case by case.  No payload or the
    string "snapshot" gives a training step whose snapshot flag is set
    exactly for the string.  On an array the comparison of line 358 is
    evaluated first: when it is False the step is a prediction, when NumPy
    raises the exception leaves the loop and ends the generator.  Every
    other payload reaches the [raise] of line 365, which ends the generator
    too. *)
Theorem command_classification (model : option model_spec) (lsds : bool) fr w tr :
  (∀ mode flag,
      dispatch B mode = Ok (TrainStep flag) ↔
      (mode = NoPayload ∧ flag = false) ∨ (mode = StrPayload "snapshot" ∧ flag = true))
  ∧ (∀ mode a,
       dispatch B mode = Ok (PredictStep a) ↔
       mode = ArrayPayload a ∧ array_vs_str B a = Ok ())
  ∧ loop_body B fr NoPayload = train_step B fr false
  ∧ loop_body B fr (StrPayload "snapshot") = train_step B fr true
  ∧ (∀ a, array_vs_str B a = Ok () →
          loop_body B fr (ArrayPayload a)
          = (let! d := predict_step B fr a in ret (fr, d)))
  ∧ (∀ a e, array_vs_str B a = Raise e →
       train_affinities B model lsds (ArrayPayload a) (Session (Suspended fr) w tr)
       = (Raised e,
          Session Finished (build_pipeline_exit B w) (tr ++ [EvExit; EvRaise e])))
  ∧ (∀ mode, unsupported mode →
       train_affinities B model lsds mode (Session (Suspended fr) w tr)
       = (Raised Exception_unknown_mode,
          Session Finished (build_pipeline_exit B w)
            (tr ++ [EvExit; EvRaise Exception_unknown_mode]))).
Proof.
  split_and!; try done.
  - intros mode flag. destruct mode as [|str|a|]; simpl;
      try case_decide; try destruct (array_vs_str B a); subst;
      (split; [intros; simplify_eq; auto | intros [[? ?]|[? ?]]; by simplify_eq]).
  - intros mode a. destruct mode as [|str|a'|]; simpl;
      try case_decide; try (split; [discriminate | by intros [? _]]).
    destruct (array_vs_str B a') as [[]|e] eqn:Hcmp; split.
    + by intros [= <-].
    + by intros [[= <-] _].
    + discriminate.
    + intros [[= <-] ?]. congruence.
  - intros a Hcmp. unfold loop_body. by rewrite dispatch_array.
  - intros a e Hcmp. unfold train_affinities, loop_body. simpl. by rewrite Hcmp.
  - intros mode Hmode. apply dispatch_unsupported in Hmode.
    unfold train_affinities, loop_body. simpl. by rewrite Hmode.
Qed.

(** C7.  The first resumption of a new generator runs the prologue only: once
    the pipeline's scope is entered it yields [(0, nan)] and nothing else has
    happened; it takes no command (Python accepts only [None] there), so the
    next resumption is the first whose value the loop dispatches on. *)
Theorem priming_emission (m : model_spec) (lsds : bool) (n : nat) w w1 w2 :
  ndim_of (offsets m) = Ok n →
  setup B w = (Ok (), w1) →
  build_pipeline_enter B lsds w1 = (Ok (), w2) →
  let primed := StepData (Some 0) (Some (nan B)) [] in
  let fr := Frame (offsets m) n lsds 0 (nan B) in
  let s1 := Session (Suspended fr) w2 [EvEnter; EvYield primed] in
  train_affinities B (Some m) lsds NoPayload (new_session w) = (Yielded primed, s1)
  ∧ (∀ mode, mode ≠ NoPayload →
       train_affinities B (Some m) lsds mode (new_session w)
       = (Raised TypeError, new_session w))
  ∧ (∀ mode,
       train_affinities B (Some m) lsds mode s1
       = match loop_body B fr mode w2 with
         | (Ok (fr', d), w') =>
             (Yielded d, Session (Suspended fr') w' [EvEnter; EvYield primed; EvYield d])
         | (Raise e, w') =>
             (Raised e, Session Finished (build_pipeline_exit B w')
                          [EvEnter; EvYield primed; EvExit; EvRaise e])
         end).
Proof.
  intros Hndim Hsetup Henter primed fr s1. split_and!.
  - unfold train_affinities, new_session, prologue. simpl.
    unfold lift at 1. unfold bind at 1. rewrite Hndim.
    rewrite (bind_Ok_intro _ _ _ _ _ Hsetup), (bind_Ok_intro _ _ _ _ _ Henter).
    done.
  - intros mode Hmode. by destruct mode.
  - intros mode. unfold train_affinities, s1. simpl.
    by destruct (loop_body B fr mode w2) as [[[fr' d]|e] w'].
Qed.

(** What a prediction yields once line 358 has let the array through and
    the three assertions pass:
    [(None, None, (affs, metadata, "image"))]: one named array, its first axis
    as long as [offsets], named "Affinities", carrying the offsets, with the
    axes [("channel", *spatial_axes)]; [spatial_axes] is the slice
    [["time", "z", "y", "x"][-ndim:]], the last [ndim] entries for a model of
    at least one dimension.  The counter and the loss are left as they were. *)
Theorem inference_emission (model : option model_spec) (lsds : bool) fr w tr
    (pred_data affs : ndarray A) w1 w2 :
  array_vs_str B pred_data = Ok () →
  save_checkpoint B (fr_iteration fr) w = (Ok (), w1) →
  predict B (add_batch_axis pred_data) w1 = (Ok affs, w2) →
  ndim (squeeze (add_batch_axis pred_data)) = fr_ndim fr →
  ndim (squeeze affs) = fr_ndim fr + 1 →
  head (shape (squeeze affs)) = Some (length (fr_offsets fr)) →
  ∃ item,
    let d := StepData None None [item] in
    train_affinities B model lsds (ArrayPayload pred_data) (Session (Suspended fr) w tr)
    = (Yielded d, Session (Suspended fr) w2 (tr ++ [EvYield d]))
    ∧ na_data item = squeeze affs
    ∧ head (shape (na_data item)) = Some (length (fr_offsets fr))
    ∧ na_type item = "image"
    ∧ na_meta item !! "name" = Some (MStr "Affinities")
    ∧ na_meta item !! "metadata" = Some (MOffsets (fr_offsets fr))
    ∧ na_meta item !! "axes" = Some (MAxes ("channel" :: spatial_axes_of (fr_ndim fr)))
    ∧ (1 ≤ fr_ndim fr →
       spatial_axes_of (fr_ndim fr) = last_entries (fr_ndim fr) ["time"; "z"; "y"; "x"]).
Proof.
  intros Hcmp Hsave Hpred Hraw Haffs Hchan.
  exists (NamedArray (squeeze affs)
            (affinities_meta (fr_offsets fr) (spatial_axes_of (fr_ndim fr))) "image").
  simpl. split_and!; try done.
  - unfold train_affinities, loop_body. simpl. rewrite Hcmp.
    unfold bind at 1. rewrite (predict_step_eval _ _ _ _ _ _ Hsave Hpred).
    by rewrite (proj2 (check_shapes_Ok _ _ _)).
  - intros. by apply slice_last_entries.
Qed.

(** C3, as the code has it, for an array that line 358 lets through to the
    prediction.  The assertions look at the arrays after [squeeze()], which
    drops every axis of length one.  When one of them fails the generator
    raises [AssertionError] and yields nothing; the exception leaves the
    [with] block, so the pipeline's scope is left and the generator is
    finished: whatever is sent next raises [StopIteration]. *)
Theorem shape_mismatch_ends_session (model : option model_spec) (lsds : bool)
    fr w tr (pred_data affs : ndarray A) w1 w2 :
  array_vs_str B pred_data = Ok () →
  save_checkpoint B (fr_iteration fr) w = (Ok (), w1) →
  predict B (add_batch_axis pred_data) w1 = (Ok affs, w2) →
  ndim (squeeze (add_batch_axis pred_data)) ≠ fr_ndim fr
  ∨ ndim (squeeze affs) ≠ fr_ndim fr + 1
  ∨ head (shape (squeeze affs)) ≠ Some (length (fr_offsets fr)) →
  ∃ e,
    let ended :=
      Session Finished (build_pipeline_exit B w2) (tr ++ [EvExit; EvRaise e]) in
    shape_mismatch e
    ∧ train_affinities B model lsds (ArrayPayload pred_data) (Session (Suspended fr) w tr)
      = (Raised e, ended)
    ∧ ∀ mode, train_affinities B model lsds mode ended = (Raised StopIteration, ended).
Proof.
  intros Hcmp Hsave Hpred Hbad.
  destruct (check_shapes fr (squeeze (add_batch_axis pred_data)) (squeeze affs))
    as [[]|e] eqn:Hcheck.
  { apply check_shapes_Ok in Hcheck as (? & ? & ?).
    by destruct Hbad as [?|[?|?]]. }
  exists e. split_and!.
  - by eapply check_shapes_Raise.
  - unfold train_affinities, loop_body. simpl. rewrite Hcmp.
    unfold bind at 1. rewrite (predict_step_eval _ _ _ _ _ _ Hsave Hpred).
    by rewrite Hcheck.
  - done.
Qed.
End GeneratorClaims.

Section TrainingClaims.
Context {S A T W : Type} (B : Backend S A T W).
Implicit Types (fr : frame S) (w : W) (d : step_data S A)
  (s : session S A W) (mode : command A) (tr : list (event S A)).

Lemma count_enter_app tr1 tr2 :
  count_enter (tr1 ++ tr2) = count_enter tr1 + count_enter tr2.
Proof. unfold count_enter. by rewrite List.filter_app, length_app. Qed.

Lemma count_exit_app tr1 tr2 :
  count_exit (tr1 ++ tr2) = count_exit tr1 + count_exit tr2.
Proof. unfold count_exit. by rewrite List.filter_app, length_app. Qed.

(** Counts the events of an explicit piece of trace. *)
Ltac count_events := unfold count_enter, count_exit; simpl; lia.

(** A finished generator stays as it is, whatever is done with it. *)
Lemma run_finished model lsds ops s :
  gen s = Finished → run B model lsds ops s = s.
Proof.
  intros Hfin. induction ops as [|o ops IH]; [done|].
  unfold run in *. simpl. replace (apply_op B model lsds o s) with s; [done|].
  destruct s as [g w tr]; simpl in Hfin; subst.
  by destruct o.
Qed.

(** One resumption keeps the discipline of the pipeline's scope. *)
Lemma apply_op_scope_discipline model lsds o s :
  scope_discipline s → scope_discipline (apply_op B model lsds o s).
Proof.
  destruct s as [g w tr]. unfold scope_discipline. simpl.
  destruct o as [mode|]; simpl.
  - unfold train_affinities. simpl. destruct g as [|fr|]; simpl.
    + intros [He Hx]. destruct mode; simpl; try done.
      destruct (prologue B model lsds w) as [[fr|e] w']; simpl;
        rewrite count_enter_app, count_exit_app, He, Hx; count_events.
    + intros [He Hx].
      destruct (loop_body B fr mode w) as [[[fr' d]|e] w']; simpl;
        rewrite count_enter_app, count_exit_app, He, Hx; count_events.
    + done.
  - unfold close. simpl. destruct g as [|fr|]; simpl.
    + intros [-> ->]. lia.
    + intros [He Hx]. rewrite count_enter_app, count_exit_app, He, Hx.
      count_events.
    + done.
Qed.

Lemma run_scope_discipline model lsds ops s :
  scope_discipline s → scope_discipline (run B model lsds ops s).
Proof.
  revert s. induction ops as [|o ops IH]; intros s Hs; [done|].
  apply IH. by apply apply_op_scope_discipline.
Qed.

Lemma run_app model lsds ops1 ops2 s :
  run B model lsds (ops1 ++ ops2) s = run B model lsds ops2 (run B model lsds ops1 s).
Proof. unfold run. apply foldl_app. Qed.

(** Every step of the loop leaves the counters alone: with the counting
    collaborators it does to the state what it does without them. *)
Lemma counted_forward_loss lsds raw aff_target aff_mask lsd_arrays wc :
  forward_loss (counting B) lsds raw aff_target aff_mask lsd_arrays wc
  = counted (forward_loss B lsds raw aff_target aff_mask lsd_arrays) wc.
Proof.
  destruct wc as [w c]. unfold forward_loss, counted, bind, lift, ret, raise.
  simpl. destruct lsds.
  - destruct lsd_arrays as [|lsd_target [|lsd_mask [|]]]; try done.
    unfold counted. simpl.
    destruct (torch_module B raw w) as [[out|e] w1]; [|done].
    destruct (match out with
              | OutSingle t => tensor_unpack2 B t
              | OutPair a l => Ok (a, l)
              end) as [[a l]|e]; [|done].
    destruct (masked_loss B a aff_target aff_mask) as [aff_loss|e] eqn:Haff;
      unfold masked_loss in *; simpl; rewrite Haff; [|done].
    by destruct (match tensor_mul B l lsd_mask with
                 | Ok pred_masked => _
                 | Raise e => _
                 end).
  - unfold counted. simpl.
    destruct (torch_module B raw w) as [[[aff_pred|a l]|e] w1]; [|done|done].
    unfold masked_loss. simpl.
    by destruct (match tensor_mul B aff_pred aff_mask with
                 | Ok pred_masked => _
                 | Raise e => _
                 end).
Qed.

Lemma counted_train_step fr (snapshot : bool) wc :
  train_step (counting B) fr snapshot wc = counted (train_step B fr snapshot) wc.
Proof.
  destruct wc as [w c]. unfold train_step, bind.
  change (pipeline_next (counting B) snapshot (w, c))
    with (counted (pipeline_next B snapshot) (w, c)).
  unfold counted at 1 2. simpl.
  destruct (pipeline_next B snapshot w) as [[[arrays snapshot_arrays]|e] w1]; [|done].
  change (as_tensor (counting B)) with (as_tensor B).
  destruct (map _ arrays) as [|raw [|aff_target [|aff_mask lsd_arrays]]]; try done.
  unfold modify. rewrite counted_forward_loss. unfold counted. simpl.
  destruct (forward_loss B (fr_lsds fr) raw aff_target aff_mask lsd_arrays
              (zero_grad B w1)) as [[[[loss aff_pred] lsd_pred]|e] w2]; [|done].
  unfold counted. simpl.
  destruct (backward_step B loss w2) as [[[]|e] w3]; [|done].
  by destruct snapshot.
Qed.

Lemma counted_predict_step fr pred_data wc :
  predict_step (counting B) fr pred_data wc
  = counted (predict_step B fr pred_data) wc.
Proof.
  destruct wc as [w c]. unfold predict_step, bind, counted, lift, ret. simpl.
  unfold counted. simpl.
  destruct (save_checkpoint B (fr_iteration fr) w) as [[[]|e] w1]; [|done].
  simpl. destruct (predict B (add_batch_axis pred_data) w1) as [[affs|e] w2]; [|done].
  simpl. by destruct (check_shapes _ _ _).
Qed.

Lemma counted_loop_body fr mode wc :
  loop_body (counting B) fr mode wc = counted (loop_body B fr mode) wc.
Proof.
  unfold loop_body.
  change (dispatch (counting B) mode) with (dispatch B mode).
  destruct (dispatch B mode) as [[snapshot|pred_data]|e].
  - apply counted_train_step.
  - unfold bind. rewrite counted_predict_step. destruct wc as [w c].
    unfold counted. simpl.
    by destruct (predict_step B fr pred_data w) as [[d|e] w1].
  - by destruct wc.
Qed.

(** The prologue counts one entry when it reaches the [with], none when it
    raises before or in it. *)
Lemma counted_prologue model lsds wc :
  prologue (counting B) model lsds wc
  = match prologue B model lsds wc.1 with
    | (Ok fr, w') => (Ok fr, (w', ScopeCalls (entered wc.2 + 1) (exited wc.2)))
    | (Raise e, w') => (Raise e, (w', wc.2))
    end.
Proof.
  destruct wc as [w c]. unfold prologue. destruct model as [m|]; [|done].
  unfold bind, lift, ret. simpl.
  destruct (ndim_of (offsets m)) as [n|e]; [|done].
  unfold counted. simpl.
  destruct (setup B w) as [[[]|e] w1]; [|done].
  simpl. by destruct (build_pipeline_enter B lsds w1) as [[[]|e] w2].
Qed.

(** One resumption, or [close], keeps the two sessions side by side. *)
Lemma apply_op_counts_calls model lsds o sc s :
  counts_calls sc s →
  counts_calls (apply_op (counting B) model lsds o sc) (apply_op B model lsds o s).
Proof.
  destruct sc as [gc [wc c] trc], s as [g w tr]. unfold counts_calls. simpl.
  intros (-> & -> & -> & He & Hx).
  destruct o as [mode|]; simpl.
  - unfold train_affinities. simpl. destruct g as [|fr|]; simpl.
    + destruct mode; simpl; try done.
      rewrite counted_prologue. simpl.
      destruct (prologue B model lsds w) as [[fr|e] w']; simpl;
        rewrite count_enter_app, count_exit_app, He, Hx;
        split_and!; try done; count_events.
    + rewrite counted_loop_body. unfold counted. simpl.
      destruct (loop_body B fr mode w) as [[[fr' d]|e] w']; simpl;
        rewrite count_enter_app, count_exit_app, He, Hx;
        split_and!; try done; count_events.
    + done.
  - unfold close. simpl. destruct g as [|fr|]; simpl; [done| |done].
    rewrite count_enter_app, count_exit_app, He, Hx.
    split_and!; try done; count_events.
Qed.

Lemma run_counts_calls model lsds ops sc s :
  counts_calls sc s →
  counts_calls (run (counting B) model lsds ops sc) (run B model lsds ops s).
Proof.
  revert sc s. induction ops as [|o ops IH]; intros sc s Hs; [done|].
  apply IH. by apply apply_op_counts_calls.
Qed.

(** The trace only grows, so the scope once entered stays counted. *)
Lemma apply_op_trace_grows model lsds o s :
  ∃ tr', trace (apply_op B model lsds o s) = trace s ++ tr'.
Proof.
  destruct s as [g w tr], o as [mode|]; simpl.
  - unfold train_affinities. simpl. destruct g as [|fr|]; simpl.
    + destruct mode; simpl; try (exists []; by rewrite app_nil_r).
      destruct (prologue B model lsds w) as [[fr|e] w']; by eexists.
    + destruct (loop_body B fr mode w) as [[[fr' d]|e] w']; by eexists.
    + exists []. by rewrite app_nil_r.
  - unfold close. simpl.
    destruct g; simpl; try (exists []; by rewrite app_nil_r). by eexists.
Qed.

Lemma run_enter_mono model lsds ops s :
  count_enter (trace s) ≤ count_enter (trace (run B model lsds ops s)).
Proof.
  revert s. induction ops as [|o ops IH]; intros s; [done|].
  etrans; [|apply IH].
  destruct (apply_op_trace_grows model lsds o s) as [tr' ->].
  rewrite count_enter_app. lia.
Qed.

Lemma run_close_finished {W'} (B' : Backend S A T W') model lsds ops
    (s : session S A W') :
  gen (run B' model lsds (ops ++ [Close]) s) = Finished.
Proof.
  unfold run. rewrite foldl_app. simpl. unfold close.
  by destruct (gen (foldl _ s ops)).
Qed.

(** C8.  Whatever is done with a generator (any sequence of resumptions with
    any commands, steps that raise, and [close]), the pipeline's scope is
    entered at most once, is not left while the generator lives, and once the
    generator has ended (by an exception or by [close]) it has been left
    exactly as often as it was entered; closing always ends the generator.
    The events of the trace are the calls on the collaborator: with the
    collaborators that count them, [__enter__] has returned as often as the
    trace says and [__exit__] was called as often as the trace says, on the
    same states.  So after a start that reached the first [yield], whatever
    follows, once the generator is closed [build_pipeline]'s scope has been
    entered once and left once; and a step that raises, like [close] on a
    suspended generator, calls [__exit__] on the state it leaves. *)
Theorem pipeline_scope_closed_once (model : option model_spec) (lsds : bool)
    (ops : list (op A)) w :
  scope_discipline (run B model lsds ops (new_session w))
  ∧ gen (run B model lsds (ops ++ [Close]) (new_session w)) = Finished
  ∧ scope_discipline (run B model lsds (ops ++ [Close]) (new_session w))
  ∧ (let s := run B model lsds ops (new_session w) in
     let sc := run (counting B) model lsds ops (new_session (w, ScopeCalls 0 0)) in
     gen sc = gen s
     ∧ trace sc = trace s
     ∧ (world sc).1 = world s
     ∧ entered (world sc).2 = count_enter (trace s)
     ∧ exited (world sc).2 = count_exit (trace s)
     ∧ match gen sc with
       | Created => entered (world sc).2 = 0 ∧ exited (world sc).2 = 0
       | Suspended _ => entered (world sc).2 = 1 ∧ exited (world sc).2 = 0
       | Finished =>
           exited (world sc).2 = entered (world sc).2 ∧ entered (world sc).2 ≤ 1
       end)
  ∧ (∀ d started,
       train_affinities (counting B) model lsds NoPayload
         (new_session (w, ScopeCalls 0 0)) = (Yielded d, started) →
       let sc := run (counting B) model lsds (ops ++ [Close]) started in
       gen sc = Finished
       ∧ entered (world sc).2 = 1
       ∧ exited (world sc).2 = 1)
  ∧ (∀ fr w0 tr,
       close B (Session (Suspended fr) w0 tr)
       = Session Finished (build_pipeline_exit B w0) (tr ++ [EvExit]))
  ∧ (∀ fr mode w0 tr e w1,
       loop_body B fr mode w0 = (Raise e, w1) →
       train_affinities B model lsds mode (Session (Suspended fr) w0 tr)
       = (Raised e,
          Session Finished (build_pipeline_exit B w1) (tr ++ [EvExit; EvRaise e]))).
Proof.
  assert (Hnew : scope_discipline (new_session (S:=S) (A:=A) w)) by done.
  assert (Hboth : counts_calls (new_session (S:=S) (A:=A) (w, ScopeCalls 0 0))
                    (new_session w)) by done.
  split_and!.
  - by apply run_scope_discipline.
  - apply run_close_finished.
  - by apply run_scope_discipline.
  - pose proof (run_scope_discipline model lsds ops _ Hnew) as Hdisc.
    destruct (run_counts_calls model lsds ops _ _ Hboth)
      as (Hgen & Htrace & Hworld & He & Hx).
    simpl. split_and!; try done.
    rewrite Hgen, He, Hx. unfold scope_discipline in Hdisc.
    by destruct (gen (run B model lsds ops (new_session w))).
  - intros d started Hsend. simpl.
    split; [apply run_close_finished|].
    pose proof (apply_op_counts_calls model lsds (Send NoPayload) _ _ Hboth)
      as Hstart.
    pose proof (apply_op_scope_discipline model lsds (Send NoPayload) _ Hnew)
      as Hdisc1.
    simpl in Hstart, Hdisc1. rewrite Hsend in Hstart. simpl in Hstart.
    assert (∃ fr, gen started = Suspended fr) as [fr Hsusp].
    { revert Hsend. unfold train_affinities. simpl.
      destruct (prologue _ _ _ _) as [[fr|e] w']; intros [= <- <-]. by eexists. }
    set (s1 := (train_affinities B model lsds NoPayload (new_session w)).2) in *.
    destruct Hstart as (Hgen1 & _).
    assert (Hs1 : scope_discipline s1) by exact Hdisc1.
    unfold scope_discipline in Hdisc1. rewrite <- Hgen1, Hsusp in Hdisc1.
    destruct Hdisc1 as [Hone _].
    pose proof (run_enter_mono model lsds (ops ++ [Close]) s1) as Hmono.
    assert (Hfin : gen (run B model lsds (ops ++ [Close]) s1) = Finished)
      by apply run_close_finished.
    assert (Hdisc : scope_discipline (run B model lsds (ops ++ [Close]) s1)).
    { by apply run_scope_discipline. }
    unfold scope_discipline in Hdisc. rewrite Hfin in Hdisc.
    assert (Hrun : counts_calls (run (counting B) model lsds (ops ++ [Close]) started)
                     (run B model lsds (ops ++ [Close]) s1)).
    { apply run_counts_calls.
      pose proof (apply_op_counts_calls model lsds (Send NoPayload) _ _ Hboth) as H.
      simpl in H. by rewrite Hsend in H. }
    destruct Hrun as (_ & _ & _ & He & Hx). rewrite He, Hx. lia.
  - done.
  - intros fr mode w0 tr e w1 Hbody. unfold train_affinities. simpl.
    by rewrite Hbody.
Qed.

(** A plain training step either ends the generator or advances the counter
    by one and yields the pair. *)
Lemma plain_step_cases model lsds fr w tr :
  let s' := apply_op B model lsds (Send NoPayload) (Session (Suspended fr) w tr) in
  gen s' = Finished
  ∨ ∃ loss w',
      s' = Session
             (Suspended (Frame (fr_offsets fr) (fr_ndim fr) (fr_lsds fr)
                           (fr_iteration fr + 1) loss))
             w'
             (tr ++ [EvYield (StepData (Some (fr_iteration fr + 1)) (Some loss) [])]).
Proof.
  simpl. unfold train_affinities, loop_body. simpl.
  destruct (train_step B fr false w) as [[[fr' d]|e] w'] eqn:Hstep; simpl.
  - right. apply train_step_Ok in Hstep
      as (?&?&?&?&?&?&?&loss&?&?&?&_&_&_&_&->&->).
    by exists loss, w'.
  - by left.
Qed.

Lemma plain_steps_count model lsds N : ∀ fr w tr fr',
  gen (run B model lsds (replicate N (Send NoPayload)) (Session (Suspended fr) w tr))
    = Suspended fr' →
  fr_iteration fr' = fr_iteration fr + N
  ∧ ∃ losses,
      length losses = N
      ∧ trace (run B model lsds (replicate N (Send NoPayload))
                 (Session (Suspended fr) w tr))
        = tr ++ progress_events (fr_iteration fr) losses.
Proof.
  induction N as [|N IH]; intros fr w tr fr'.
  - simpl. intros [= <-]. split; [lia|]. exists []. by rewrite app_nil_r.
  - change (replicate (Datatypes.S N) (Send NoPayload))
      with ([Send NoPayload] ++ replicate N (Send (A:=A) NoPayload)).
    rewrite run_app. change (run B model lsds [Send NoPayload] ?s)
      with (apply_op B model lsds (Send NoPayload) s).
    destruct (plain_step_cases model lsds fr w tr) as [Hfin|(loss & w' & ->)].
    + rewrite run_finished by done. rewrite Hfin. discriminate.
    + intros Hrun. destruct (IH _ _ _ _ Hrun) as (Hit & losses & Hlen & Htr).
      simpl in Hit. split; [lia|].
      exists (loss :: losses). split; [simpl; lia|].
      rewrite Htr. simpl. rewrite <- app_assoc. f_equal.
      unfold progress_events. simpl. rewrite Nat.add_0_r. f_equal.
      apply imap_ext. intros k l _. simpl. do 3 f_equal. lia.
Qed.

(** C4.  A new generator resumed [N + 1] times with no payload, every step
    completing (the generator is still suspended at the end): the first
    resumption is the priming one and yields [(0, nan)], the [k]-th step after
    it yields exactly the pair [(k, loss)], and the counter stands at [N]. *)
Theorem iteration_counts_training_steps (model : option model_spec) (lsds : bool)
    (N : nat) w fr :
  gen (run B model lsds (replicate (N + 1) (Send NoPayload)) (new_session w))
    = Suspended fr →
  fr_iteration fr = N
  ∧ ∃ losses,
      length losses = N
      ∧ trace (run B model lsds (replicate (N + 1) (Send NoPayload)) (new_session w))
        = [EvEnter; EvYield (StepData (Some 0) (Some (nan B)) [])]
          ++ progress_events 0 losses.
Proof.
  rewrite Nat.add_comm. simpl replicate.
  change (Send NoPayload :: ?l) with ([Send (A:=A) NoPayload] ++ l).
  rewrite run_app.
  change (run B model lsds [Send NoPayload] ?s)
    with (apply_op B model lsds (Send NoPayload) s).
  simpl apply_op. unfold train_affinities at 1 2. simpl.
  destruct (prologue B model lsds w) as [[fr0|e] w'] eqn:Hpro; simpl.
  - assert (fr_iteration fr0 = 0 ∧ fr_loss fr0 = nan B) as [Hit Hloss].
    { unfold prologue in Hpro. destruct model as [m|]; [|discriminate].
      bind_inv Hpro as n w1 Hn. bind_inv Hpro as [] w2 Hs.
      bind_inv Hpro as [] w3 He. unfold ret in Hpro. by simplify_eq. }
    intros Hrun. destruct (plain_steps_count _ _ _ _ _ _ _ Hrun)
      as (Hfr & losses & Hlen & Htr).
    split; [lia|]. exists losses. split; [done|].
    rewrite Htr, Hit, Hloss. done.
  - rewrite run_finished by done. discriminate.
Qed.
(** No command makes the counter go back: a resumption that yields leaves it
    as it was (a prediction) or one higher (a training step). *)
Lemma loop_body_iteration fr mode w fr' d w' :
  loop_body B fr mode w = (Ok (fr', d), w') →
  fr_iteration fr ≤ fr_iteration fr' ≤ fr_iteration fr + 1.
Proof.
  unfold loop_body. destruct (dispatch B mode) as [[snapshot|pred_data]|e].
  - intros Hstep. apply train_step_Ok in Hstep
      as (?&?&?&?&?&?&?&loss&?&?&?&_&_&_&_&->&_). simpl. lia.
  - intros H. bind_inv H as d0 w0 Hpred. unfold ret in H. simplify_eq. lia.
  - discriminate.
Qed.

Lemma iteration_never_decreases model lsds ops : ∀ fr w tr fr',
  gen (run B model lsds ops (Session (Suspended fr) w tr)) = Suspended fr' →
  fr_iteration fr ≤ fr_iteration fr'.
Proof.
  induction ops as [|o ops IH]; intros fr w tr fr'.
  - simpl. by intros [= ->].
  - change (o :: ops) with ([o] ++ ops). rewrite run_app.
    change (run B model lsds [o] ?s) with (apply_op B model lsds o s).
    destruct o as [mode|]; simpl.
    + unfold train_affinities. simpl.
      destruct (loop_body B fr mode w) as [[[fr1 d]|e] w1] eqn:Hbody; simpl.
      * intros Hrun. apply IH in Hrun. apply loop_body_iteration in Hbody. lia.
      * rewrite run_finished by done. discriminate.
    + unfold close. simpl. rewrite run_finished by done. discriminate.
Qed.
End TrainingClaims.

Section StepClaims.
Context {S A T W : Type} (B : Backend S A T W).
Implicit Types (fr : frame S) (w : W) (d : step_data S A)
  (s : session S A W) (mode : command A) (tr : list (event S A)).

(** C5.  With shape descriptors enabled, the loss of a completed step is the
    product of two losses: the mean squared error between prediction times
    mask and target times mask, once for the affinities and once for the
    shape descriptors, on the five tensors of the batch and the two
    predictions of the network. *)
Theorem lsds_loss_is_product fr (snapshot : bool) w fr' d w' :
  fr_lsds fr = true →
  train_step B fr snapshot w = (Ok (fr', d), w') →
  ∃ arrays snapshot_arrays w1 raw aff_target aff_mask lsd_target lsd_mask
    out w2 aff_pred lsd_pred,
    pipeline_next B snapshot w = (Ok (arrays, snapshot_arrays), w1)
    ∧ map (λ array, as_tensor B (na_data array)) arrays
      = [raw; aff_target; aff_mask; lsd_target; lsd_mask]
    ∧ torch_module B raw (zero_grad B w1) = (Ok out, w2)
    ∧ match out with
      | OutPair a l => Ok (a, l)
      | OutSingle t => tensor_unpack2 B t
      end = Ok (aff_pred, lsd_pred)
    ∧ ∃ aff_pred_masked aff_target_masked lsd_pred_masked lsd_target_masked
        aff_loss lsd_loss,
        tensor_mul B aff_pred aff_mask = Ok aff_pred_masked
        ∧ tensor_mul B aff_target aff_mask = Ok aff_target_masked
        ∧ mse_loss B aff_pred_masked aff_target_masked = Ok aff_loss
        ∧ tensor_mul B lsd_pred lsd_mask = Ok lsd_pred_masked
        ∧ tensor_mul B lsd_target lsd_mask = Ok lsd_target_masked
        ∧ mse_loss B lsd_pred_masked lsd_target_masked = Ok lsd_loss
        ∧ sd_loss d = Some (loss_mul B aff_loss lsd_loss)
        ∧ fr_loss fr' = loss_mul B aff_loss lsd_loss.
Proof.
  intros Hlsds Hstep.
  apply train_step_Ok in Hstep
    as (arrays & snapshot_arrays & w1 & raw & aff_target & aff_mask & lsd_arrays
        & loss & aff_pred & lsd_pred & w2 & Hnext & Hmap & Hfwd & Hback & -> & ->).
  rewrite Hlsds in Hfwd.
  apply forward_loss_lsds_Ok in Hfwd
    as (lsd_target & lsd_mask & out & lsd & aff_loss & lsd_loss
        & -> & Hout & Hunpack & -> & Haff & Hlsd & ->).
  apply masked_loss_Ok in Haff as (apm & atm & ? & ? & ?).
  apply masked_loss_Ok in Hlsd as (lpm & ltm & ? & ? & ?).
  exists arrays, snapshot_arrays, w1, raw, aff_target, aff_mask, lsd_target,
    lsd_mask, out, w2, aff_pred, lsd.
  split_and!; try done.
  exists apm, atm, lpm, ltm, aff_loss, lsd_loss. done.
Qed.

(** C6.  A resumption with "snapshot" that reaches its [yield] advances the
    counter by one, as a plain step does, and yields the progress pair
    followed by the pipeline's arrays, the pipeline's snapshot arrays and the
    predictions.  The first prediction is the image "sample_aff_pred": its
    data is the network's affinity output on the first array of the
    pipeline, converted by [.detach().cpu().numpy()], and its metadata is
    the name and the axes [("batch", "channel", *spatial_axes)], nothing
    else.  With shape descriptors enabled the image "sample_lsd_pred"
    follows, made the same way from the second output of the network;
    without them nothing follows.  The tuple is longer than 2.  A plain step
    from the same state yields the pair alone. *)
Theorem snapshot_step_emission (model : option model_spec) (lsds : bool) fr w tr :
  (∀ d s',
     train_affinities B model lsds (StrPayload "snapshot") (Session (Suspended fr) w tr)
       = (Yielded d, s') →
     ∃ loss w' arrays snapshot_arrays w1 raw aff_target aff_mask lsd_arrays out w2
       aff_pred aff_item lsd_items,
       pipeline_next B true w = (Ok (arrays, snapshot_arrays), w1)
       ∧ map (λ array, as_tensor B (na_data array)) arrays
         = raw :: aff_target :: aff_mask :: lsd_arrays
       ∧ torch_module B raw (zero_grad B w1) = (Ok out, w2)
       ∧ backward_step B loss w2 = (Ok (), w')
       ∧ s' = Session
                (Suspended (Frame (fr_offsets fr) (fr_ndim fr) (fr_lsds fr)
                              (fr_iteration fr + 1) loss))
                w' (tr ++ [EvYield d])
       ∧ d = StepData (Some (fr_iteration fr + 1)) (Some loss)
               (arrays ++ snapshot_arrays ++ aff_item :: lsd_items)
       ∧ 2 < step_data_len d
       ∧ na_data aff_item = to_numpy B aff_pred
       ∧ na_type aff_item = "image"
       ∧ na_meta aff_item !! "name" = Some (MStr "sample_aff_pred")
       ∧ na_meta aff_item !! "axes"
         = Some (MAxes ("batch" :: "channel" :: spatial_axes_of (fr_ndim fr)))
       ∧ (∀ k, k ≠ "name" → k ≠ "axes" → na_meta aff_item !! k = None)
       ∧ if fr_lsds fr
         then ∃ lsd_pred lsd_item,
                match out with
                | OutPair a l => Ok (a, l)
                | OutSingle t => tensor_unpack2 B t
                end = Ok (aff_pred, lsd_pred)
                ∧ lsd_items = [lsd_item]
                ∧ na_data lsd_item = to_numpy B lsd_pred
                ∧ na_type lsd_item = "image"
                ∧ na_meta lsd_item !! "name" = Some (MStr "sample_lsd_pred")
                ∧ na_meta lsd_item !! "axes"
                  = Some (MAxes ("batch" :: "channel" :: spatial_axes_of (fr_ndim fr)))
                ∧ (∀ k, k ≠ "name" → k ≠ "axes" → na_meta lsd_item !! k = None)
         else out = OutSingle aff_pred ∧ lsd_items = [])
  ∧ (∀ d s',
       train_affinities B model lsds NoPayload (Session (Suspended fr) w tr)
         = (Yielded d, s') →
       ∃ loss w',
         s' = Session
                (Suspended (Frame (fr_offsets fr) (fr_ndim fr) (fr_lsds fr)
                              (fr_iteration fr + 1) loss))
                w' (tr ++ [EvYield d])
         ∧ d = StepData (Some (fr_iteration fr + 1)) (Some loss) []).
Proof.
  split; intros d s'; unfold train_affinities, loop_body; simpl.
  - destruct (train_step B fr true w) as [[[fr' d']|e] w'] eqn:Hstep;
      intros [= <- <-].
    apply train_step_Ok in Hstep
      as (arrays & snapshot_arrays & w1 & raw & aff_target & aff_mask & lsd_arrays
          & loss & aff_pred & lsd_pred & w2 & Hnext & Hmap & Hfwd & Hback & -> & ->).
    destruct (sample_meta_lookup "sample_aff_pred" (spatial_axes_of (fr_ndim fr)))
      as (Haff_name & Haff_axes & Haff_rest).
    destruct (sample_meta_lookup "sample_lsd_pred" (spatial_axes_of (fr_ndim fr)))
      as (Hlsd_name & Hlsd_axes & Hlsd_rest).
    assert (2 < step_data_len
                  (StepData (Some (fr_iteration fr + 1)) (Some loss)
                     (arrays ++ snapshot_arrays
                      ++ pred_arrays B (spatial_axes_of (fr_ndim fr)) aff_pred
                           lsd_pred))) as Hlen.
    { unfold step_data_len, pred_arrays. simpl. rewrite !length_app. simpl. lia. }
    destruct (fr_lsds fr) eqn:Hlsds.
    + apply forward_loss_lsds_Ok in Hfwd
        as (lsd_target & lsd_mask & out & lsd & aff_loss & lsd_loss
            & -> & Hout & Hunpack & -> & _ & _ & ->).
      exists (loss_mul B aff_loss lsd_loss), w', arrays, snapshot_arrays, w1, raw,
        aff_target, aff_mask, [lsd_target; lsd_mask], out, w2, aff_pred.
      eexists _, _.
      split_and!; [done | done | done | done | done | reflexivity | exact Hlen
                   | done | done | done | done | done |].
      eexists lsd, _. split_and!; [done | reflexivity | done..].
    + apply forward_loss_plain_Ok in Hfwd as (Hout & -> & _).
      exists loss, w', arrays, snapshot_arrays, w1, raw, aff_target, aff_mask,
        lsd_arrays, (OutSingle aff_pred), w2, aff_pred.
      eexists _, _.
      split_and!; [done | done | done | done | done | reflexivity | exact Hlen
                   | done..].
  - destruct (train_step B fr false w) as [[[fr' d']|e] w'] eqn:Hstep;
      intros [= <- <-].
    apply train_step_Ok in Hstep
      as (?&?&?&?&?&?&?&loss&?&?&?&_&_&_&_&->&->).
    by exists loss, w'.
Qed.

(** The converse for both training commands: when the pipeline serves at
    least three arrays and the network, the losses and the optimizer answer,
    the resumption yields and the generator stays suspended. *)
Lemma training_command_yields (model : option model_spec) (lsds : bool) fr w tr
    mode (snapshot : bool) arrays snapshot_arrays w1 raw aff_target aff_mask
    lsd_arrays loss aff_pred lsd_pred w2 w' :
  dispatch B mode = Ok (TrainStep snapshot) →
  pipeline_next B snapshot w = (Ok (arrays, snapshot_arrays), w1) →
  map (λ array, as_tensor B (na_data array)) arrays
    = raw :: aff_target :: aff_mask :: lsd_arrays →
  forward_loss B (fr_lsds fr) raw aff_target aff_mask lsd_arrays (zero_grad B w1)
    = (Ok (loss, aff_pred, lsd_pred), w2) →
  backward_step B loss w2 = (Ok (), w') →
  ∃ d,
    train_affinities B model lsds mode (Session (Suspended fr) w tr)
    = (Yielded d,
       Session
         (Suspended (Frame (fr_offsets fr) (fr_ndim fr) (fr_lsds fr)
                       (fr_iteration fr + 1) loss))
         w' (tr ++ [EvYield d]))
    ∧ sd_iteration d = Some (fr_iteration fr + 1)
    ∧ sd_loss d = Some loss.
Proof.
  intros Hmode Hnext Hmap Hfwd Hback. eexists.
  unfold train_affinities, loop_body. simpl. rewrite Hmode.
  rewrite (train_step_intro B fr snapshot w _ _ _ _ _ _ _ _ _ _ _ _
             Hnext Hmap Hfwd Hback).
  done.
Qed.
End StepClaims.

(** * Facts about the sink *)

Section SinkClaims.
Context {S A : Type}.
Variable dims_assign : list string → list string → list string.
Variable dims_resize : list string → list nat → list string.
Variable format_loss : S → string.
Implicit Types (v : viewer A) (it : named_array A) (l : layer A)
  (labels axes : list string).

Lemma relabel_layers axes labels v labels' v' err :
  relabel dims_assign axes labels v = (labels', v', err) → layers v' = layers v.
Proof.
  unfold relabel. repeat case_decide; intros; by simplify_eq.
Qed.

(** The axis check of lines 284-296 lets the array through when the
    viewer's labels share a name with its axes, or are at most one more than
    its spatial axes. *)
Lemma relabel_passes axes labels v :
  Exists (λ a, a ∈ labels) axes
  ∨ length labels ≤ length (filter (λ a, a ∉ ["batch"; "channel"]) axes) + 1 →
  ∃ labels' v', relabel dims_assign axes labels v = (labels', v', None).
Proof.
  intros Hok. unfold relabel. case_decide as Hdisjoint.
  - case_decide; [eauto|]. destruct Hok as [Hex|]; [|lia].
    apply Exists_exists in Hex as (a & Ha & Hin).
    by destruct (proj1 (Forall_forall _ _) Hdisjoint a Ha).
  - eauto.
Qed.

(** Otherwise the assertion of line 288 fails and nothing was touched. *)
Lemma relabel_fails axes labels v :
  ¬ (Exists (λ a, a ∈ labels) axes
     ∨ length labels ≤ length (filter (λ a, a ∉ ["batch"; "channel"]) axes) + 1) →
  relabel dims_assign axes labels v = (labels, v, Some AssertionError_viewer_axes).
Proof.
  intros Hno. unfold relabel. case_decide as Hdisjoint.
  - case_decide; [|done]. destruct Hno. by right.
  - destruct Hno. left. apply not_Forall_Exists in Hdisjoint; [|apply _].
    eapply Exists_impl; [exact Hdisjoint|]. simpl. intros a Ha.
    by destruct (decide (a ∈ labels)).
Qed.

(** A reshape that NumPy refuses: the sample has no element, or one of the
    two sizes is no multiple of the sample's. *)
Lemma concat_samples_Raise sample_shape (old new : ndarray A) :
  product sample_shape = 0
  ∨ size old `mod` product sample_shape ≠ 0
  ∨ size new `mod` product sample_shape ≠ 0 →
  concat_samples sample_shape old new = Raise ValueError_reshape.
Proof.
  intros Hbad. unfold concat_samples, reshape_samples.
  repeat case_decide; try done. by destruct Hbad as [?|[?|?]].
Qed.

Lemma reshape_samples_Ok sample_shape (a : ndarray A) :
  product sample_shape ≠ 0 →
  size a `mod` product sample_shape = 0 →
  reshape_samples sample_shape a
  = Ok (NDArray (size a `div` product sample_shape :: sample_shape) (values a)).
Proof. intros. unfold reshape_samples. by repeat case_decide. Qed.

Lemma concat_samples_Ok sample_shape (old new : ndarray A) :
  product sample_shape ≠ 0 →
  size old `mod` product sample_shape = 0 →
  size new `mod` product sample_shape = 0 →
  concat_samples sample_shape old new
  = Ok (NDArray (size old `div` product sample_shape
                 + size new `div` product sample_shape :: sample_shape)
          (values old ++ values new)).
Proof.
  intros. unfold concat_samples. rewrite !reshape_samples_Ok by done.
  unfold concatenate. simpl. by case_decide.
Qed.

(** What [upsert] does to a layer that exists, when the reshapes succeed. *)
Lemma upsert_existing name axes it kwargs labels v l :
  layers v !! name = Some l →
  let sample_shape := sample_shape_of axes (na_data it) in
  product sample_shape ≠ 0 →
  size (layer_data l) `mod` product sample_shape = 0 →
  size (na_data it) `mod` product sample_shape = 0 →
  ∃ labels' v' err,
    upsert dims_assign dims_resize name axes it kwargs labels v = (labels', v', err)
    ∧ (err = None ∨ err = Some IndexError)
    ∧ layers v'
      = <[name := Layer
                    (NDArray (size (layer_data l) `div` product sample_shape
                              + size (na_data it) `div` product sample_shape
                              :: sample_shape)
                       (values (layer_data l) ++ values (na_data it)))
                    (layer_type l) (layer_kwargs l)]> (layers v).
Proof.
  intros Hl sample_shape Hp Hold Hnew. unfold upsert.
  rewrite Hl. fold sample_shape. rewrite concat_samples_Ok by done.
  assert (∀ data, layers (set_layer_data dims_resize name data v)
                  = <[name := Layer data (layer_type l) (layer_kwargs l)]> (layers v))
    as Hset.
  { intros data. unfold set_layer_data. simpl.
    apply map_eq. intros k. destruct (decide (name = k)) as [<-|Hne].
    - by rewrite lookup_alter_eq, lookup_insert_eq, Hl.
    - by rewrite lookup_alter_ne, lookup_insert_ne. }
  destruct labels as [|first rest].
  - eexists _, _, _. split_and!; [done | by right | apply Hset].
  - case_decide; eexists _, _, _; (split_and!; [done | by left | apply Hset]).
Qed.
Lemma add_layers_single it v :
  add_layers dims_assign dims_resize [it] v
  = let '(_, v', err) :=
      add_layers_body dims_assign dims_resize it (axis_labels v) v in (v', err).
Proof.
  unfold add_layers. simpl.
  by destruct (add_layers_body _ _ _ _ _) as [[labels' v'] [e|]].
Qed.

(** Delivering an array whose layer exists, when the axis check lets it
    through and both reshapes succeed. *)
Lemma add_layers_existing_layer it name axes l v :
  na_meta it !! "name" = Some (MStr name) →
  na_meta it !! "axes" = Some (MAxes axes) →
  layers v !! name = Some l →
  Exists (λ a, a ∈ axis_labels v) axes
  ∨ length (axis_labels v)
    ≤ length (filter (λ a, a ∉ ["batch"; "channel"]) axes) + 1 →
  let sample_shape := sample_shape_of axes (na_data it) in
  product sample_shape ≠ 0 →
  size (layer_data l) `mod` product sample_shape = 0 →
  size (na_data it) `mod` product sample_shape = 0 →
  ∃ v' err,
    add_layers dims_assign dims_resize [it] v = (v', err)
    ∧ (err = None ∨ err = Some IndexError)
    ∧ layers v'
      = <[name := Layer
                    (NDArray (size (layer_data l) `div` product sample_shape
                              + size (na_data it) `div` product sample_shape
                              :: sample_shape)
                       (values (layer_data l) ++ values (na_data it)))
                    (layer_type l) (layer_kwargs l)]> (layers v).
Proof.
  intros Hname Haxes Hl Hcheck sample_shape Hp Hold Hnew.
  rewrite add_layers_single. unfold add_layers_body.
  rewrite Hname, lookup_delete_ne, Haxes by done.
  destruct (relabel_passes axes (axis_labels v) v Hcheck) as (labels1 & v1 & Hre).
  rewrite Hre. apply relabel_layers in Hre.
  destruct (upsert_existing name axes it
              (delete "axes" (delete "name" (na_meta it))) labels1 v1 l)
    as (labels' & v' & err & -> & Herr & Hlayers); try done.
  { by rewrite Hre. }
  exists v', err. by rewrite Hlayers, Hre.
Qed.

(** Delivering an array whose layer exists, when the axis check or one of
    the reshapes refuses it: the call raises and no layer has changed. *)
Lemma add_layers_existing_layer_raises it name axes l v :
  na_meta it !! "name" = Some (MStr name) →
  na_meta it !! "axes" = Some (MAxes axes) →
  layers v !! name = Some l →
  let sample_shape := sample_shape_of axes (na_data it) in
  ¬ ((Exists (λ a, a ∈ axis_labels v) axes
      ∨ length (axis_labels v)
        ≤ length (filter (λ a, a ∉ ["batch"; "channel"]) axes) + 1)
     ∧ product sample_shape ≠ 0
     ∧ size (layer_data l) `mod` product sample_shape = 0
     ∧ size (na_data it) `mod` product sample_shape = 0) →
  ∃ v' e,
    add_layers dims_assign dims_resize [it] v = (v', Some e)
    ∧ (e = AssertionError_viewer_axes ∨ e = ValueError_reshape)
    ∧ layers v' = layers v.
Proof.
  intros Hname Haxes Hl sample_shape Hno.
  rewrite add_layers_single. unfold add_layers_body.
  rewrite Hname, lookup_delete_ne, Haxes by done.
  destruct (decide (Exists (λ a, a ∈ axis_labels v) axes
                    ∨ length (axis_labels v)
                      ≤ length (filter (λ a, a ∉ ["batch"; "channel"]) axes) + 1))
    as [Hcheck|Hcheck].
  - destruct (relabel_passes axes (axis_labels v) v Hcheck) as (labels1 & v1 & Hre).
    rewrite Hre. apply relabel_layers in Hre. unfold upsert.
    rewrite Hre, Hl. fold sample_shape. rewrite concat_samples_Raise.
    + exists v1, ValueError_reshape. split_and!; [done | by right | done].
    + destruct (decide (product sample_shape = 0)); [by left|].
      destruct (decide (size (layer_data l) `mod` product sample_shape = 0));
        [|by right; left].
      destruct (decide (size (na_data it) `mod` product sample_shape = 0));
        [|by right; right].
      by destruct Hno.
  - rewrite relabel_fails by done.
    exists v, AssertionError_viewer_axes. split_and!; [done | by left | done].
Qed.

(** Two arrays named "X" with the axes [("batch", "y", "x")], two samples
    and then three: the first creates the layer, the second leaves it with
    five samples, the first two before the last three. *)
Lemma two_emissions_batch_five (h w : nat) (xs ys : list A) v0 v1 :
  h * w ≠ 0 →
  let meta : gmap string meta_val :=
    <["name" := MStr "X"]> (<["axes" := MAxes ["batch"; "y"; "x"]]> ∅) in
  let first := NamedArray (NDArray [2; h; w] xs) meta "image" in
  let second := NamedArray (NDArray [3; h; w] ys) meta "image" in
  layers v0 !! "X" = None →
  add_layers dims_assign dims_resize [first] v0 = (v1, None) →
  Exists (λ a, a ∈ axis_labels v1) ["batch"; "y"; "x"] ∨ length (axis_labels v1) ≤ 3 →
  ∃ v2 err,
    add_layers dims_assign dims_resize [second] v1 = (v2, err)
    ∧ layer_data <$> layers v2 !! "X" = Some (NDArray [5; h; w] (xs ++ ys)).
Proof.
  intros Hhw meta first second Hfresh Hfirst Hcheck.
  assert (∃ l, layers v1 !! "X" = Some l ∧ layer_data l = NDArray [2; h; w] xs)
    as (l & Hl & Hdata).
  { rewrite add_layers_single in Hfirst. unfold add_layers_body in Hfirst.
    subst meta first second. simpl in Hfirst.
    rewrite lookup_insert_eq in Hfirst.
    rewrite lookup_delete_ne, lookup_insert_ne, lookup_insert_eq in Hfirst by done.
    destruct (relabel _ _ _ _) as [[labels1 va] [e|]] eqn:Hre; [by simplify_eq|].
    apply relabel_layers in Hre. unfold upsert in Hfirst.
    rewrite Hre, Hfresh in Hfirst. simpl in Hfirst. simplify_eq. simpl.
    eexists. by rewrite lookup_insert_eq. }
  assert (product [h; w] ≠ 0) as Hp by (simpl; lia).
  assert (second.(na_meta) !! "name" = Some (MStr "X")) as Hname by done.
  assert (second.(na_meta) !! "axes" = Some (MAxes ["batch"; "y"; "x"])) as Haxes
    by done.
  destruct (add_layers_existing_layer second "X" ["batch"; "y"; "x"] l v1 Hname Haxes Hl)
    as (v2 & err & Hsecond & _ & Hlayers); try done; rewrite ?Hdata.
  - change (size (NDArray [2; h; w] xs)) with (2 * product [h; w]).
    apply Nat.Div0.mod_mul.
  - change (size (na_data second)) with (3 * product [h; w]).
    apply Nat.Div0.mod_mul.
  - exists v2, err. split; [done|]. rewrite Hlayers, lookup_insert_eq. simpl.
    rewrite Hdata.
    change (sample_shape_of _ _) with [h; w].
    change (size (NDArray [2; h; w] xs)) with (2 * product [h; w]).
    change (size (NDArray [3; h; w] ys)) with (3 * product [h; w]).
    by rewrite !Nat.div_mul.
Qed.

(** C9, as the code has it.  When a layer of the array's name exists, the
    axis check lets the array through and neither array's size fails the
    reshape to [(-1, *sample_shape)], the layer's data becomes the old
    elements followed by the new ones under the shape
    [(old rows + new rows, *sample_shape)], where [sample_shape] is the new
    array's shape after its "batch" axis; the other layers are untouched.
    In particular two arrays named "X" with the axes [("batch", "y", "x")]
    and two and three samples of the same non-empty shape leave a layer of
    five samples, in the order they came.  Otherwise (the axis check
    refuses the array, the sample has no element, or one of the two sizes is
    no multiple of the sample's) the call raises, [AssertionError] or
    [ValueError], and every layer is as it was. *)
Theorem add_layers_concatenates :
  (∀ it name axes l v,
     na_meta it !! "name" = Some (MStr name) →
     na_meta it !! "axes" = Some (MAxes axes) →
     layers v !! name = Some l →
     Exists (λ a, a ∈ axis_labels v) axes
     ∨ length (axis_labels v)
       ≤ length (filter (λ a, a ∉ ["batch"; "channel"]) axes) + 1 →
     let sample_shape := sample_shape_of axes (na_data it) in
     product sample_shape ≠ 0 →
     size (layer_data l) `mod` product sample_shape = 0 →
     size (na_data it) `mod` product sample_shape = 0 →
     ∃ v' err,
       add_layers dims_assign dims_resize [it] v = (v', err)
       ∧ (err = None ∨ err = Some IndexError)
       ∧ layers v'
         = <[name := Layer
                       (NDArray (size (layer_data l) `div` product sample_shape
                                 + size (na_data it) `div` product sample_shape
                                 :: sample_shape)
                          (values (layer_data l) ++ values (na_data it)))
                       (layer_type l) (layer_kwargs l)]> (layers v))
  ∧ (∀ (h w : nat) (xs ys : list A) v0 v1,
       h * w ≠ 0 →
       let meta : gmap string meta_val :=
         <["name" := MStr "X"]> (<["axes" := MAxes ["batch"; "y"; "x"]]> ∅) in
       layers v0 !! "X" = None →
       add_layers dims_assign dims_resize
         [NamedArray (NDArray [2; h; w] xs) meta "image"] v0 = (v1, None) →
       Exists (λ a, a ∈ axis_labels v1) ["batch"; "y"; "x"]
       ∨ length (axis_labels v1) ≤ 3 →
       ∃ v2 err,
         add_layers dims_assign dims_resize
           [NamedArray (NDArray [3; h; w] ys) meta "image"] v1 = (v2, err)
         ∧ layer_data <$> layers v2 !! "X" = Some (NDArray [5; h; w] (xs ++ ys)))
  ∧ (∀ it name axes l v,
       na_meta it !! "name" = Some (MStr name) →
       na_meta it !! "axes" = Some (MAxes axes) →
       layers v !! name = Some l →
       let sample_shape := sample_shape_of axes (na_data it) in
       ¬ ((Exists (λ a, a ∈ axis_labels v) axes
           ∨ length (axis_labels v)
             ≤ length (filter (λ a, a ∉ ["batch"; "channel"]) axes) + 1)
          ∧ product sample_shape ≠ 0
          ∧ size (layer_data l) `mod` product sample_shape = 0
          ∧ size (na_data it) `mod` product sample_shape = 0) →
       ∃ v' e,
         add_layers dims_assign dims_resize [it] v = (v', Some e)
         ∧ (e = AssertionError_viewer_axes ∨ e = ValueError_reshape)
         ∧ layers v' = layers v).
Proof.
  split; [|split].
  - intros. by apply add_layers_existing_layer.
  - intros h w xs ys v0 v1 Hhw meta. by apply two_emissions_batch_five.
  - intros it name axes l v Hname Haxes Hl sample_shape Hno.
    by apply (add_layers_existing_layer_raises it name axes l v).
Qed.

(** C10.  [on_yield] hands the named arrays of the tuple to [add_layers]
    whenever there are any, whatever the first two entries are; it leaves both
    labels as they are when the iteration or the loss is [None] (and when
    [add_layers] raised), and sets them when both are there. *)
Theorem on_yield_progress_labels (d : step_data S A) (w : widget A) :
  let after := on_yield dims_assign dims_resize format_loss d w in
  let delivered :=
    if decide (sd_layers d = []) then (widget_viewer w, None)
    else add_layers dims_assign dims_resize (sd_layers d) (widget_viewer w) in
  (widget_viewer (after.1), after.2) = delivered
  ∧ (sd_iteration d = None ∨ sd_loss d = None ∨ is_Some (delivered.2) →
     iterations_widget (after.1) = iterations_widget w
     ∧ loss_widget (after.1) = loss_widget w)
  ∧ (∀ iteration loss,
       sd_iteration d = Some iteration → sd_loss d = Some loss →
       delivered.2 = None →
       iterations_widget (after.1) = pretty iteration
       ∧ loss_widget (after.1) = format_loss loss).
Proof.
  unfold on_yield.
  destruct (sd_layers d) as [|it its] eqn:Hlayers; simpl.
  - split_and!; [by repeat case_match | |].
    + intros [Hi|[Hl|[e He]]]; [by rewrite Hi | | done].
      rewrite Hl. by destruct (sd_iteration d).
    + by intros iteration loss -> ->.
  - destruct (add_layers dims_assign dims_resize (it :: its) (widget_viewer w))
      as [v' [e|]]; simpl.
    + split_and!; [done | done | ]. by intros.
    + split_and!; [by repeat case_match | |].
      * intros [Hi|[Hl|[e He]]]; [by rewrite Hi | | done].
        rewrite Hl. by destruct (sd_iteration d).
      * by intros iteration loss -> ->.
Qed.
End SinkClaims.

(** * The claims on the concrete world *)

(** The classification on the concrete world: an object that is no command
    ends the generator with the exception of line 365. *)
Lemma command_classification_witness :
  train_affinities Demo.backend (Some Demo.model) false OtherPayload (Demo.primed false)
  = (Raised Exception_unknown_mode,
     Session Finished (Demo.DemoWorld false 0 0 false)
       [EvExit; EvRaise Exception_unknown_mode]).
Proof.
  destruct (command_classification Demo.backend (Some Demo.model) false
              (Demo.frame0 false) (Demo.open_world false) [])
    as (_ & _ & _ & _ & _ & _ & Hother).
  apply Hother. by split_and!.
Defined.

(** C1.  The array commands of the claim against the code under NumPy 1.25
    or later: the 2x2 image that [predict()] sends (four elements) does not
    become a prediction step.  Line 358 raises [ValueError] on it before the
    [isinstance] test of line 361, nothing is yielded, the pipeline's scope is
    left and the generator is finished. *)
Lemma array_command_raises_at_line_358 :
  size Demo.raw_image = 4
  ∧ dispatch Demo.backend_numpy_1_25 (ArrayPayload Demo.raw_image)
    = Raise ValueError_truth_value
  ∧ train_affinities Demo.backend_numpy_1_25 (Some Demo.model) false
      (ArrayPayload Demo.raw_image) (Demo.primed false)
    = (Raised ValueError_truth_value,
       Session Finished (Demo.DemoWorld false 0 0 false)
         [EvExit; EvRaise ValueError_truth_value])
  ∧ dispatch Demo.backend (ArrayPayload Demo.raw_image)
    = Ok (PredictStep Demo.raw_image).
Proof. by split_and!. Qed.

(** C7 on the concrete world. *)
Lemma priming_emission_witness :
  train_affinities Demo.backend (Some Demo.model) false NoPayload
    (new_session Demo.world0)
  = (Yielded (StepData (Some 0) (Some PrimFloat.nan) []),
     Session (Suspended (Demo.frame0 false)) (Demo.open_world false)
       [EvEnter; EvYield (StepData (Some 0) (Some PrimFloat.nan) [])]).
Proof.
  exact (proj1 (priming_emission Demo.backend Demo.model false 2 Demo.world0
                  Demo.world0 (Demo.open_world false) eq_refl eq_refl eq_refl)).
Defined.

(** A prediction on the concrete world, NumPy before 1.25: a 2x2 image behind
    a channel axis of length one gives two affinity channels with the axes
    [("channel", "y", "x")]. *)
Lemma inference_emission_witness :
  ∃ item,
    train_affinities Demo.backend (Some Demo.model) false
      (ArrayPayload Demo.raw_image) (Demo.primed false)
    = (Yielded (StepData None None [item]),
       Session (Suspended (Demo.frame0 false)) (Demo.open_world false)
         [EvYield (StepData None None [item])])
    ∧ shape (na_data item) = [2; 2; 2]
    ∧ na_meta item !! "axes" = Some (MAxes ["channel"; "y"; "x"]).
Proof.
  destruct (inference_emission Demo.backend (Some Demo.model) false
              (Demo.frame0 false) (Demo.open_world false) [] Demo.raw_image
              Demo.zero_affs (Demo.open_world false) (Demo.open_world false)
              eq_refl eq_refl eq_refl eq_refl eq_refl eq_refl)
    as (item & Hsend & Hdata & _ & _ & _ & _ & Haxes & _).
  exists item. split_and!; [exact Hsend | by rewrite Hdata | exact Haxes].
Defined.

(** C2.  The claim against the code on two inputs.  The 2x2 image, a valid
    input of the two-dimensional model (before NumPy 1.25 its prediction is
    yielded), yields nothing under NumPy 1.25 or later: line 358 raises
    [ValueError] and the generator ends.  And for a model whose offsets have
    no component ([ndim = 0]) a valid one-pixel input is yielded with the
    axes [("channel", "time", "z", "y", "x")], because [[-0:]] is the whole
    list, where the last 0 entries are none. *)
Lemma prediction_fails_on_valid_input :
  (∃ item s',
     train_affinities Demo.backend (Some Demo.model) false
       (ArrayPayload Demo.raw_image) (Demo.primed false)
     = (Yielded (StepData None None [item]), s'))
  ∧ train_affinities Demo.backend_numpy_1_25 (Some Demo.model) false
      (ArrayPayload Demo.raw_image) (Demo.primed false)
    = (Raised ValueError_truth_value,
       Session Finished (Demo.DemoWorld false 0 0 false)
         [EvExit; EvRaise ValueError_truth_value])
  ∧ (∃ item s',
       train_affinities Demo.backend_numpy_1_25 (Some (Model [[]; []])) false
         (ArrayPayload Demo.one_pixel)
         (Session (Suspended Demo.flat_frame) (Demo.open_world false) [])
       = (Yielded (StepData None None [item]), s')
       ∧ shape (na_data item) = [2]
       ∧ na_meta item !! "axes"
         = Some (MAxes ["channel"; "time"; "z"; "y"; "x"])
       ∧ last_entries (fr_ndim Demo.flat_frame) ["time"; "z"; "y"; "x"] = []).
Proof.
  split; [|split].
  - eexists _, _. vm_compute. reflexivity.
  - done.
  - eexists _, _. split; [vm_compute; reflexivity|]. by split_and!.
Qed.

(** C3 as stated fails on the concrete world, whatever the NumPy.  Before
    NumPy 1.25: an image of shape [(1, 2, 2)] has three axes where the model
    has two dimensions, and its prediction is yielded all the same, because
    [squeeze()] drops the axis of length one; and after a prediction that
    failed its assertion the generator is finished, so the next command is
    not processed.  With NumPy 1.25 or later: the stack of shape [(2, 2, 2)]
    makes line 358 raise, and the generator is finished just the same. *)
Lemma shape_mismatch_claim_counterexample :
  (ndim Demo.raw_image = 3
   ∧ fr_ndim (Demo.frame0 false) = 2
   ∧ ∃ item s',
       train_affinities Demo.backend (Some Demo.model) false
         (ArrayPayload Demo.raw_image) (Demo.primed false)
       = (Yielded (StepData None None [item]), s'))
  ∧ (∃ ended,
       train_affinities Demo.backend (Some Demo.model) false
         (ArrayPayload Demo.raw_stack) (Demo.primed false)
       = (Raised AssertionError_raw_dims, ended)
       ∧ gen ended = Finished
       ∧ train_affinities Demo.backend (Some Demo.model) false NoPayload ended
         = (Raised StopIteration, ended))
  ∧ ndim Demo.raw_stack = 3
  ∧ ∃ e ended,
      train_affinities Demo.backend_numpy_1_25 (Some Demo.model) false
        (ArrayPayload Demo.raw_stack) (Demo.primed false)
      = (Raised e, ended)
      ∧ gen ended = Finished
      ∧ train_affinities Demo.backend_numpy_1_25 (Some Demo.model) false
          NoPayload ended
        = (Raised StopIteration, ended).
Proof.
  split; [|split; [|split]].
  - split; [done|]. split; [done|]. eexists _, _. vm_compute. reflexivity.
  - eexists. split; [vm_compute; reflexivity|]. split; done.
  - done.
  - eexists _, _. split; [vm_compute; reflexivity|]. split; done.
Qed.

(** C3 as the code has it, on the concrete world. *)
Lemma shape_mismatch_ends_session_witness :
  ∃ e,
    shape_mismatch e
    ∧ train_affinities Demo.backend (Some Demo.model) false
        (ArrayPayload Demo.raw_stack) (Demo.primed false)
      = (Raised e, Session Finished (Demo.DemoWorld false 0 0 false) [EvExit; EvRaise e]).
Proof.
  destruct (shape_mismatch_ends_session Demo.backend (Some Demo.model) false
              (Demo.frame0 false) (Demo.open_world false) [] Demo.raw_stack
              Demo.zero_affs (Demo.open_world false) (Demo.open_world false)
              eq_refl eq_refl eq_refl)
    as (e & Hmis & Hsend & _).
  { left. vm_compute. discriminate. }
  exists e. split; [exact Hmis | exact Hsend].
Defined.

(** C4 on the concrete world: two plain steps after the priming one. *)
Lemma iteration_counts_training_steps_witness :
  fr_iteration (Frame (offsets Demo.model) 2 false 2 2%float) = 2
  ∧ ∃ losses : list float,
      length losses = 2
      ∧ trace (run Demo.backend (Some Demo.model) false
                 (replicate (2 + 1) (Send NoPayload)) (new_session Demo.world0))
        = [EvEnter; EvYield (StepData (Some 0) (Some PrimFloat.nan) [])]
          ++ progress_events 0 losses.
Proof.
  apply (iteration_counts_training_steps Demo.backend (Some Demo.model) false 2
           Demo.world0 (Frame (offsets Demo.model) 2 false 2 2%float)).
  vm_compute. reflexivity.
Defined.

(** C8 on the concrete world: a generator that was primed, failed a
    prediction and was then resumed and closed entered the pipeline's scope
    once and left it once, by the trace and by the count of the calls. *)
Lemma pipeline_scope_closed_once_witness :
  let ops := [Send NoPayload; Send (ArrayPayload Demo.raw_stack); Send NoPayload;
              Close] in
  let s := run Demo.backend (Some Demo.model) false ops (new_session Demo.world0) in
  let sc := run (counting Demo.backend) (Some Demo.model) false ops
              (new_session (Demo.world0, ScopeCalls 0 0)) in
  (count_exit (trace s) = count_enter (trace s) ∧ count_enter (trace s) ≤ 1)
  ∧ entered (world sc).2 = 1
  ∧ exited (world sc).2 = 1.
Proof.
  split.
  - exact (proj1 (pipeline_scope_closed_once Demo.backend (Some Demo.model) false
                    [Send NoPayload; Send (ArrayPayload Demo.raw_stack);
                     Send NoPayload; Close] Demo.world0)).
  - destruct (pipeline_scope_closed_once Demo.backend (Some Demo.model) false
                [Send (ArrayPayload Demo.raw_stack); Send NoPayload] Demo.world0)
      as (_ & _ & _ & _ & Hstarted & _).
    edestruct Hstarted as (_ & He & Hx); [vm_compute; reflexivity|].
    split; [exact He | exact Hx].
Defined.

Example scope_entered_and_left_once :
  let s := run Demo.backend (Some Demo.model) false
             [Send NoPayload; Send (ArrayPayload Demo.raw_stack); Send NoPayload; Close]
             (new_session Demo.world0) in
  count_enter (trace s) = 1 ∧ count_exit (trace s) = 1
  ∧ Demo.dw_open (world s) = false.
Proof. vm_compute. done. Qed.

(** C5 on the concrete world: the masked affinity loss is 2.0, the masked
    shape-descriptor loss is 3.0, and the step yields the loss 6.0. *)
Lemma lsds_loss_is_product_witness :
  ∃ fr' d w' aff_loss lsd_loss,
    train_step Demo.backend (Demo.frame0 true) false (Demo.open_world true)
    = (Ok (fr', d), w')
    ∧ aff_loss = 2%float ∧ lsd_loss = 3%float
    ∧ sd_loss d = Some (aff_loss * lsd_loss)%float
    ∧ sd_loss d = Some 6%float.
Proof.
  destruct (train_step Demo.backend (Demo.frame0 true) false (Demo.open_world true))
    as [[[fr' d]|e] w'] eqn:Hstep; [|vm_compute in Hstep; discriminate].
  destruct (lsds_loss_is_product Demo.backend (Demo.frame0 true) false
              (Demo.open_world true) fr' d w' eq_refl Hstep)
    as (arrays & snapshot_arrays & w1 & raw & aff_target & aff_mask & lsd_target
        & lsd_mask & out & w2 & aff_pred & lsd_pred & Hnext & Hmap & Hout & Hunpack
        & apm & atm & lpm & ltm & aff_loss & lsd_loss
        & Hapm & Hatm & Haff & Hlpm & Hltm & Hlsd & Hloss & _).
  vm_compute in Hnext. injection Hnext as <- <- <-.
  vm_compute in Hmap. injection Hmap as <- <- <- <- <-.
  vm_compute in Hout. injection Hout as <- <-.
  vm_compute in Hunpack. injection Hunpack as <- <-.
  vm_compute in Hapm. injection Hapm as <-.
  vm_compute in Hatm. injection Hatm as <-.
  vm_compute in Hlpm. injection Hlpm as <-.
  vm_compute in Hltm. injection Hltm as <-.
  vm_compute in Haff. injection Haff as <-.
  vm_compute in Hlsd. injection Hlsd as <-.
  exists fr', d, w', 2%float, 3%float.
  split_and!; [done | done | done | exact Hloss | by rewrite Hloss].
Defined.

(** C6 on the concrete world: the snapshot step after the priming one yields
    the counter 1 and five arrays after the pair. *)
Lemma snapshot_step_emission_witness :
  ∃ d s',
    train_affinities Demo.backend (Some Demo.model) false (StrPayload "snapshot")
      (Demo.primed false)
    = (Yielded d, s')
    ∧ sd_iteration d = Some 1
    ∧ length (sd_layers d) = 5
    ∧ 2 < step_data_len d.
Proof.
  destruct (train_affinities Demo.backend (Some Demo.model) false
              (StrPayload "snapshot") (Demo.primed false))
    as [[d|e] s'] eqn:Hsend; [|vm_compute in Hsend; discriminate].
  destruct (proj1 (snapshot_step_emission Demo.backend (Some Demo.model) false
                     (Demo.frame0 false) (Demo.open_world false) []) d s' Hsend)
    as (loss & w' & arrays & snapshot_arrays & w1 & raw & aff_target & aff_mask
        & lsd_arrays & out & w2 & aff_pred & aff_item & lsd_items
        & Hnext & _ & _ & _ & _ & Hd & Hlen & _ & _ & _ & _ & _ & Hlsd).
  simpl in Hlsd. destruct Hlsd as [_ ->].
  vm_compute in Hnext. injection Hnext as <- <- <-.
  exists d, s'. split_and!; [done | by rewrite Hd | by rewrite Hd | exact Hlen].
Defined.

(** C9 as stated fails on the concrete world: the layer "X" holds one row of
    three pixels, the new array has samples of two pixels, the reshape of the
    old data raises and the layer keeps its data. *)
Lemma add_layers_claim_counterexample :
  is_Some (layers Demo.viewer_odd_row !! "X")
  ∧ add_layers Demo.dims_assign Demo.dims_resize [Demo.two_samples]
      Demo.viewer_odd_row
    = (Demo.viewer_odd_row, Some ValueError_reshape).
Proof. split; [by eexists | vm_compute; reflexivity]. Qed.

(** C9 as the code has it, on the concrete world: two samples, then three. *)
Lemma add_layers_concatenates_witness :
  ∃ v' err,
    add_layers Demo.dims_assign Demo.dims_resize [Demo.three_samples]
      Demo.viewer_two_samples = (v', err)
    ∧ layer_data <$> layers v' !! "X"
      = Some (NDArray [5; 1; 2] [1; 2; 3; 4; 5; 6; 7; 8; 9; 10]%float).
Proof.
  destruct (proj1 (add_layers_concatenates Demo.dims_assign Demo.dims_resize)
              Demo.three_samples "X" ["batch"; "y"; "x"]
              (Layer (NDArray [2; 1; 2] [1; 2; 3; 4]%float) "image" ∅)
              Demo.viewer_two_samples eq_refl eq_refl eq_refl)
    as (v' & err & Hadd & _ & Hlayers).
  - left. apply Exists_cons_hd. by left.
  - vm_compute. discriminate.
  - reflexivity.
  - reflexivity.
  - exists v', err. split; [exact Hadd|]. rewrite Hlayers. reflexivity.
Defined.

(** C10 on the concrete world: a prediction's tuple [(None, None, array)]
    leaves both labels alone and the array reaches the viewer. *)
Lemma on_yield_progress_labels_witness :
  let w := Widget "7" "0.25" Demo.empty_viewer in
  let d := StepData None None [Demo.two_samples] in
  let after := on_yield Demo.dims_assign Demo.dims_resize Demo.format_loss d w in
  iterations_widget (after.1) = "7" ∧ loss_widget (after.1) = "0.25"
  ∧ is_Some (layers (widget_viewer (after.1)) !! "X").
Proof.
  intros w d after.
  destruct (on_yield_progress_labels Demo.dims_assign Demo.dims_resize
              Demo.format_loss d w) as (Hdelivered & Hkeep & _).
  destruct (Hkeep (or_introl eq_refl)) as [Hit Hloss].
  split_and!; [exact Hit | exact Hloss |].
  vm_compute. by eexists.
Defined.

(** * More about the generator *)

Section GeneratorExtras.
Context {S A T W : Type} (B : Backend S A T W).
Implicit Types (fr : frame S) (w : W) (d : step_data S A)
  (s : session S A W) (mode : command A) (tr : list (event S A)).

(** X1.  Lines 329-353: a first resumption that raises has yielded nothing
    and has not entered the pipeline's scope; the generator is finished.
    Without a model the exception is the [ValueError] of line 331, with a
    model that has no offset it is the [IndexError] of [offsets[0]], and in
    both cases no collaborator was called. *)
Theorem failed_start_opens_nothing (model : option model_spec) (lsds : bool)
    w e s' :
  train_affinities B model lsds NoPayload (new_session w) = (Raised e, s') →
  gen s' = Finished
  ∧ trace s' = [EvRaise e]
  ∧ count_enter (trace s') = 0 ∧ count_exit (trace s') = 0
  ∧ (model = None → e = ValueError_no_model ∧ world s' = w)
  ∧ (∀ m, model = Some m → offsets m = [] → e = IndexError ∧ world s' = w).
Proof.
  unfold train_affinities, new_session. simpl.
  destruct (prologue B model lsds w) as [[fr|e'] w'] eqn:Hpro; intros [= <- <-].
  simpl. split_and!; try done.
  - intros ->. simpl in Hpro. unfold raise in Hpro. by simplify_eq.
  - intros m -> Hoff. unfold prologue in Hpro. rewrite Hoff in Hpro.
    simpl in Hpro. unfold bind, lift in Hpro. by simplify_eq.
Qed.

Lemma predict_step_Ok fr pred_data w d w' :
  predict_step B fr pred_data w = (Ok d, w') →
  sd_iteration d = None ∧ sd_loss d = None ∧ length (sd_layers d) = 1.
Proof.
  unfold predict_step. intros H.
  bind_inv H as [] w1 Hsave. bind_inv H as affs w2 Hpred.
  bind_inv H as [] w3 Hcheck. unfold ret in H. by simplify_eq.
Qed.

(** X2.  The protocol of the yielded tuples, whatever the state and the
    command: either the tuple carries the counter and the loss the generator
    now holds, with named arrays only if the command was "snapshot"; or it
    carries neither, holds exactly one named array and answers an array
    command. *)
Theorem yielded_tuple_protocol (model : option model_spec) (lsds : bool)
    mode s d s' :
  train_affinities B model lsds mode s = (Yielded d, s') →
  ∃ fr',
    gen s' = Suspended fr'
    ∧ ((sd_iteration d = Some (fr_iteration fr')
        ∧ sd_loss d = Some (fr_loss fr')
        ∧ (sd_layers d = [] ∨ mode = StrPayload "snapshot"))
       ∨ (sd_iteration d = None ∧ sd_loss d = None
          ∧ length (sd_layers d) = 1 ∧ ∃ a, mode = ArrayPayload a)).
Proof.
  unfold train_affinities. destruct (gen s) as [|fr|].
  - destruct mode; try discriminate.
    destruct (prologue B model lsds (world s)) as [[fr|e] w']; intros [= <- <-].
    exists fr. split; [done|]. left. by split_and!; [| |left].
  - unfold loop_body.
    destruct (dispatch B mode) as [[snapshot|pred_data]|e] eqn:Hmode.
    + destruct (train_step B fr snapshot (world s)) as [[[fr' d']|e] w'] eqn:Hstep;
        intros [= <- <-].
      apply train_step_Ok in Hstep
        as (?&?&?&?&?&?&?&loss&?&?&?&_&_&_&_&->&->).
      eexists. split; [done|]. left. simpl. split_and!; [done | done |].
      destruct snapshot; [right | by left].
      by destruct (dispatch_TrainStep B _ _ Hmode) as [[_ ?]|[? _]].
    + destruct (bind _ _ _) as [[[fr' d']|e] w'] eqn:Hstep; intros [= <- <-].
      bind_inv Hstep as d0 w0 Hpred. unfold ret in Hstep. simplify_eq.
      apply predict_step_Ok in Hpred as (? & ? & ?).
      exists fr'. split; [done|]. right. split_and!; try done.
      apply dispatch_PredictStep in Hmode. by eexists.
    + unfold raise. discriminate.
  - discriminate.
Qed.

(** X3.  Whatever commands are mixed, a generator that is still suspended
    has counted exactly the training commands it was sent: plain steps and
    snapshots add one each, predictions add nothing. *)
Theorem counter_counts_training_commands (model : option model_spec)
    (lsds : bool) (ops : list (op A)) : ∀ fr w tr fr',
  gen (run B model lsds ops (Session (Suspended fr) w tr)) = Suspended fr' →
  fr_iteration fr' = fr_iteration fr + length (List.filter is_training_op ops).
Proof.
  induction ops as [|o ops IH]; intros fr w tr fr'.
  - simpl. intros [= ->]. lia.
  - change (o :: ops) with ([o] ++ ops). rewrite run_app.
    change (run B model lsds [o] ?s) with (apply_op B model lsds o s).
    destruct o as [mode|]; simpl.
    + unfold train_affinities, loop_body. simpl.
      destruct (dispatch B mode) as [[snapshot|pred_data]|e] eqn:Hmode.
      * destruct (train_step B fr snapshot w) as [[[fr1 d]|e] w1] eqn:Hstep; simpl.
        -- intros Hrun. apply IH in Hrun. rewrite Hrun.
           apply train_step_Ok in Hstep
             as (?&?&?&?&?&?&?&loss&?&?&?&_&_&_&_&->&_). simpl.
           destruct (dispatch_TrainStep B _ _ Hmode) as [[-> _]|[-> _]];
             simpl; lia.
        -- rewrite run_finished by done. discriminate.
      * destruct (bind _ _ _) as [[[fr1 d]|e] w1] eqn:Hstep; simpl.
        -- intros Hrun. apply IH in Hrun. rewrite Hrun.
           bind_inv Hstep as d0 w0 Hpred. unfold ret in Hstep. simplify_eq.
           apply dispatch_PredictStep in Hmode as ->. simpl. lia.
        -- rewrite run_finished by done. discriminate.
      * unfold raise. simpl. rewrite run_finished by done. discriminate.
    + unfold close. simpl. rewrite run_finished by done. discriminate.
Qed.

(** X4.  Any exception that leaves the loop ends the generator for good: the
    pipeline's scope is left once more than before, and whatever is done
    afterwards yields nothing, calls no collaborator and records nothing. *)
Theorem raise_ends_session (model : option model_spec) (lsds : bool)
    fr w tr mode e s' :
  train_affinities B model lsds mode (Session (Suspended fr) w tr) = (Raised e, s') →
  gen s' = Finished
  ∧ trace s' = tr ++ [EvExit; EvRaise e]
  ∧ (∀ mode', train_affinities B model lsds mode' s' = (Raised StopIteration, s'))
  ∧ (∀ ops, run B model lsds ops s' = s').
Proof.
  unfold train_affinities. simpl.
  destruct (loop_body B fr mode w) as [[[fr' d]|e'] w'] eqn:Hbody; intros [= <- <-].
  split_and!; try done. intros ops. by apply run_finished.
Qed.

(** X5.  Lines 424-433: a batch of fewer than three arrays, or with shape
    descriptors a batch that has not exactly five, makes the step raise
    [ValueError] at the unpacking, before the network is called; the
    generator ends and the pipeline's scope is left. *)
Theorem short_batch_raises (model : option model_spec) (lsds : bool) fr w tr
    mode (snapshot : bool) arrays snapshot_arrays w1 :
  dispatch B mode = Ok (TrainStep snapshot) →
  pipeline_next B snapshot w = (Ok (arrays, snapshot_arrays), w1) →
  length arrays < 3 ∨ (fr_lsds fr = true ∧ length arrays ≠ 5) →
  train_affinities B model lsds mode (Session (Suspended fr) w tr)
  = (Raised ValueError_unpack,
     Session Finished
       (build_pipeline_exit B (if decide (length arrays < 3) then w1 else zero_grad B w1))
       (tr ++ [EvExit; EvRaise ValueError_unpack])).
Proof.
  intros Hmode Hnext Hshort.
  unfold train_affinities, loop_body. simpl. rewrite Hmode.
  unfold train_step. rewrite (bind_Ok_intro _ _ _ _ _ Hnext).
  assert (length (map (λ array, as_tensor B (na_data array)) arrays) = length arrays)
    as Hlen by apply length_map.
  destruct (map _ arrays) as [|raw [|aff_target [|aff_mask lsd_arrays]]];
    simpl in Hlen; try (case_decide; [done | lia]).
  case_decide; [lia|]. destruct Hshort as [?|[Hlsds Hfive]]; [lia|].
  unfold bind at 1, modify. unfold bind at 1. rewrite Hlsds. simpl.
  destruct lsd_arrays as [|lsd_target [|lsd_mask [|]]]; simpl in Hlen;
    try done; lia.
Qed.
End GeneratorExtras.

(** * More about the sink *)

Section SinkExtras.
Context {S A : Type}.
Variable dims_assign : list string → list string → list string.
Variable dims_resize : list string → list nat → list string.
Variable format_loss : S → string.
Implicit Types (v : viewer A) (it : named_array A) (l : layer A)
  (labels axes : list string).

Lemma upsert_keeps name axes it kwargs labels v labels' v' err n l :
  upsert dims_assign dims_resize name axes it kwargs labels v = (labels', v', err) →
  layers v !! n = Some l →
  ∃ l', layers v' !! n = Some l' ∧ same_layer_but_data l l' ∧ (n ≠ name → l' = l).
Proof.
  unfold upsert. intros Hup Hn.
  destruct (layers v !! name) as [l0|] eqn:Hname.
  - destruct (concat_samples _ _ _) as [data|e].
    + assert (∃ l', layers (set_layer_data dims_resize name data v) !! n = Some l'
                    ∧ same_layer_but_data l l' ∧ (n ≠ name → l' = l)) as Hset.
      { unfold set_layer_data. simpl. destruct (decide (name = n)) as [->|Hne].
        - rewrite lookup_alter_eq, Hn. simpl. eexists. by split_and!.
        - rewrite lookup_alter_ne, Hn by done. eexists. by split_and!. }
      destruct labels as [|first rest]; [by simplify_eq|].
      case_decide; by simplify_eq.
    + simplify_eq. exists l. by split_and!.
  - assert (n ≠ name) as Hne by (intros ->; congruence).
    repeat case_decide; simplify_eq; simpl; rewrite ?lookup_insert_ne by done;
      exists l; by split_and!.
Qed.

Lemma add_layers_body_keeps it labels v labels' v' err n l :
  add_layers_body dims_assign dims_resize it labels v = (labels', v', err) →
  layers v !! n = Some l →
  ∃ l', layers v' !! n = Some l' ∧ same_layer_but_data l l'
        ∧ (delivered_name it ≠ Some n → l' = l).
Proof.
  unfold add_layers_body, delivered_name. intros Hbody Hn.
  destruct (na_meta it !! "name") as [[name| |]|]; try (simplify_eq; by exists l).
  destruct (delete "name" (na_meta it) !! "axes") as [[|axes|]|];
    try (simplify_eq; by exists l).
  destruct (relabel dims_assign axes labels v) as [[labels1 v1] [e|]] eqn:Hre.
  - apply relabel_layers in Hre. simplify_eq. rewrite Hre. by exists l.
  - apply relabel_layers in Hre. rewrite <- Hre in Hn.
    destruct (upsert_keeps _ _ _ _ _ _ _ _ _ _ _ Hbody Hn) as (l' & ? & ? & Hl').
    exists l'. split_and!; [done | done |]. intros Hne. apply Hl'. congruence.
Qed.

Lemma add_layers_loop_keeps (its : list (named_array A)) :
  ∀ labels v labels' v' err n l,
    add_layers_loop dims_assign dims_resize its labels v = (labels', v', err) →
    layers v !! n = Some l →
    ∃ l', layers v' !! n = Some l' ∧ same_layer_but_data l l'
          ∧ (Forall (λ it, delivered_name it ≠ Some n) its → l' = l).
Proof.
  induction its as [|it its IH]; intros labels v labels' v' err n l Hloop Hn;
    simpl in Hloop.
  - simplify_eq. exists l. by split_and!.
  - destruct (add_layers_body dims_assign dims_resize it labels v)
      as [[labels1 v1] [e|]] eqn:Hbody.
    + simplify_eq.
      destruct (add_layers_body_keeps _ _ _ _ _ _ _ _ Hbody Hn)
        as (l' & ? & ? & Hl').
      exists l'. split_and!; try done. intros Hall. apply Hl'.
      by apply Forall_cons in Hall as [? _].
    + destruct (add_layers_body_keeps _ _ _ _ _ _ _ _ Hbody Hn)
        as (l1 & Hn1 & [Ht1 Hk1] & Hl1).
      destruct (IH _ _ _ _ _ _ _ Hloop Hn1) as (l' & ? & [Ht Hk] & Hl').
      exists l'. split_and!; [done | split; congruence |].
      intros Hall. apply Forall_cons in Hall as [? ?].
      rewrite Hl' by done. by apply Hl1.
Qed.

(** X8.  [add_layers] never removes a layer and never changes the kind or
    the keyword arguments of one; a layer whose name no delivered array
    carries is left exactly as it was, also when an exception escapes. *)
Theorem add_layers_keeps_layers (its : list (named_array A)) v v' err n l :
  add_layers dims_assign dims_resize its v = (v', err) →
  layers v !! n = Some l →
  ∃ l', layers v' !! n = Some l'
        ∧ layer_type l' = layer_type l ∧ layer_kwargs l' = layer_kwargs l
        ∧ (Forall (λ it, delivered_name it ≠ Some n) its → l' = l).
Proof.
  unfold add_layers.
  destruct (add_layers_loop _ _ _ _ _) as [[labels' v''] err'] eqn:Hloop.
  intros [= <- <-] Hn.
  destruct (add_layers_loop_keeps _ _ _ _ _ _ _ _ Hloop Hn) as (l' & ? & [? ?] & ?).
  by exists l'.
Qed.

Lemma add_layers_loop_app its1 its2 labels v labels1 v1 :
  add_layers_loop dims_assign dims_resize its1 labels v = (labels1, v1, None) →
  add_layers_loop dims_assign dims_resize (its1 ++ its2) labels v
  = add_layers_loop dims_assign dims_resize its2 labels1 v1.
Proof.
  revert labels v. induction its1 as [|it its1 IH]; intros labels v; simpl.
  - by intros [= -> ->].
  - destruct (add_layers_body _ _ _ _ _) as [[labels' v'] [e|]]; [done|].
    apply IH.
Qed.

(** X7.  Lines 277-280: an array without "name" (or, named, without "axes")
    makes [add_layers] raise [KeyError] at the [pop]; the arrays delivered
    before it stay delivered, the viewer is otherwise as they left it, and
    the arrays after it are not looked at. *)
Theorem add_layers_stops_at_missing_key (its1 its2 : list (named_array A)) it v v1 :
  add_layers dims_assign dims_resize its1 v = (v1, None) →
  na_meta it !! "name" = None
  ∨ ((∃ name, na_meta it !! "name" = Some (MStr name)) ∧ na_meta it !! "axes" = None) →
  ∃ key,
    add_layers dims_assign dims_resize (its1 ++ it :: its2) v
    = (v1, Some (KeyError key)).
Proof.
  unfold add_layers.
  destruct (add_layers_loop _ _ its1 _ _) as [[labels1 v1'] err] eqn:Hloop.
  intros [= -> ->] Hmissing.
  rewrite (add_layers_loop_app _ _ _ _ _ _ Hloop). simpl.
  unfold add_layers_body.
  destruct Hmissing as [Hname|[[name Hname] Haxes]]; rewrite Hname.
  - by exists "name".
  - rewrite lookup_delete_ne, Haxes by done. by exists "axes".
Qed.

(** Delivering an array under a name no layer carries. *)
Lemma add_layers_fresh_name it name axes v :
  na_meta it !! "name" = Some (MStr name) →
  na_meta it !! "axes" = Some (MAxes axes) →
  layers v !! name = None →
  Exists (λ a, a ∈ axis_labels v) axes
  ∨ length (axis_labels v)
    ≤ length (filter (λ a, a ∉ ["batch"; "channel"]) axes) + 1 →
  ∃ v',
    add_layers dims_assign dims_resize [it] v = (v', None)
    ∧ layers v'
      = if decide (na_type it = "image" ∨ na_type it = "labels")
        then <[name := Layer (na_data it) (na_type it)
                         (delete "axes" (delete "name" (na_meta it)))]> (layers v)
        else layers v.
Proof.
  intros Hname Haxes Hfresh Hcheck.
  rewrite add_layers_single. unfold add_layers_body.
  rewrite Hname, lookup_delete_ne, Haxes by done.
  destruct (relabel_passes dims_assign axes (axis_labels v) v Hcheck)
    as (labels1 & v1 & Hre).
  rewrite Hre. apply relabel_layers in Hre. unfold upsert. rewrite Hre, Hfresh.
  repeat case_decide; eexists; (split; [done|]); simpl; rewrite ?Hre;
    try done; try tauto.
  - by replace (na_type it) with "image".
  - by replace (na_type it) with "labels".
Qed.

(** X6.  Lines 319-324: an array whose name no layer carries, once through
    the axis check, becomes a new layer of its kind holding exactly the
    delivered data and the rest of its metadata when its layer type is
    "image" or "labels"; with any other layer type nothing is added and
    nothing is raised. *)
Theorem add_layers_new_name it name axes v :
  na_meta it !! "name" = Some (MStr name) →
  na_meta it !! "axes" = Some (MAxes axes) →
  layers v !! name = None →
  Exists (λ a, a ∈ axis_labels v) axes
  ∨ length (axis_labels v)
    ≤ length (filter (λ a, a ∉ ["batch"; "channel"]) axes) + 1 →
  ∃ v',
    add_layers dims_assign dims_resize [it] v = (v', None)
    ∧ layers v'
      = if decide (na_type it = "image" ∨ na_type it = "labels")
        then <[name := Layer (na_data it) (na_type it)
                         (delete "axes" (delete "name" (na_meta it)))]> (layers v)
        else layers v.
Proof. apply add_layers_fresh_name. Qed.

Lemma product_cons (n : nat) (dims : list nat) :
  product (n :: dims) = n * product dims.
Proof. done. Qed.

(** X9.  Lines 306-312 lose nothing: when the old data and the new array
    hold as many elements as their shapes say, so does the concatenated data,
    and it has as many elements as both together. *)
Theorem concatenation_conserves_elements it name axes l v :
  na_meta it !! "name" = Some (MStr name) →
  na_meta it !! "axes" = Some (MAxes axes) →
  layers v !! name = Some l →
  Exists (λ a, a ∈ axis_labels v) axes
  ∨ length (axis_labels v)
    ≤ length (filter (λ a, a ∉ ["batch"; "channel"]) axes) + 1 →
  let sample_shape := sample_shape_of axes (na_data it) in
  product sample_shape ≠ 0 →
  size (layer_data l) `mod` product sample_shape = 0 →
  size (na_data it) `mod` product sample_shape = 0 →
  well_formed (layer_data l) → well_formed (na_data it) →
  ∃ v' err l',
    add_layers dims_assign dims_resize [it] v = (v', err)
    ∧ layers v' !! name = Some l'
    ∧ well_formed (layer_data l')
    ∧ size (layer_data l') = size (layer_data l) + size (na_data it)
    ∧ drop 1 (shape (layer_data l')) = sample_shape.
Proof.
  intros Hname Haxes Hl Hcheck sample_shape Hp Hold Hnew Hwf_old Hwf_new.
  destruct (add_layers_existing_layer dims_assign dims_resize it name axes l v
              Hname Haxes Hl Hcheck Hp Hold Hnew)
    as (v' & err & Hadd & _ & Hlayers).
  eexists v', err, _. split; [done|]. rewrite Hlayers, lookup_insert_eq.
  split; [done|]. fold sample_shape. unfold well_formed in *. simpl.
  assert (size (NDArray (size (layer_data l) `div` product sample_shape
                         + size (na_data it) `div` product sample_shape
                         :: sample_shape)
                  (values (layer_data l) ++ values (na_data it)))
          = size (layer_data l) + size (na_data it)) as Hsize.
  { unfold size at 1. simpl shape. rewrite product_cons.
    rewrite Nat.mul_add_distr_r.
    rewrite (Nat.mul_comm (_ `div` _)), (Nat.mul_comm (size (na_data it) `div` _)).
    by rewrite <- !(proj2 (Nat.Div0.div_exact _ _)). }
  split_and!; [|done|done].
  rewrite Hsize, length_app. congruence.
Qed.

(** X10.  An array whose axes have no "batch" is stacked: its whole shape
    is the sample shape, so a layer that holds [k] arrays of that shape holds
    [k + 1] afterwards, the new one last.  (A prediction delivered again is
    piled on the earlier ones.) *)
Theorem stacking_without_batch_axis it name axes l v (k : nat) :
  na_meta it !! "name" = Some (MStr name) →
  na_meta it !! "axes" = Some (MAxes axes) →
  "batch" ∉ axes →
  layers v !! name = Some l →
  Exists (λ a, a ∈ axis_labels v) axes
  ∨ length (axis_labels v)
    ≤ length (filter (λ a, a ∉ ["batch"; "channel"]) axes) + 1 →
  size (na_data it) ≠ 0 →
  size (layer_data l) = k * size (na_data it) →
  ∃ v' err,
    add_layers dims_assign dims_resize [it] v = (v', err)
    ∧ layer_data <$> layers v' !! name
      = Some (NDArray (k + 1 :: shape (na_data it))
                (values (layer_data l) ++ values (na_data it))).
Proof.
  intros Hname Haxes Hbatch Hl Hcheck Hsize Hold.
  assert (index "batch" axes = None) as Hindex.
  { clear -Hbatch. induction axes as [|a axes IH]; [done|]. simpl.
    apply not_elem_of_cons in Hbatch as [? ?]. case_decide; [done|].
    by rewrite IH. }
  assert (sample_shape_of axes (na_data it) = shape (na_data it)) as Hss.
  { unfold sample_shape_of. by rewrite Hindex. }
  destruct (add_layers_existing_layer dims_assign dims_resize it name axes l v
              Hname Haxes Hl Hcheck)
    as (v' & err & Hadd & _ & Hlayers); rewrite ?Hss; try done.
  - rewrite Hold. apply Nat.Div0.mod_mul.
  - apply Nat.Div0.mod_same.
  - exists v', err. split; [done|]. rewrite Hlayers, lookup_insert_eq. simpl.
    rewrite Hss, Hold. fold (size (na_data it)).
    by rewrite Nat.div_mul, Nat.div_same.
Qed.

(** X11.  Lines 284-296 settle: once the axis check has let an array through,
    it lets the same axes through again and leaves the labels it computed as
    they are. *)
Theorem relabel_settles axes labels v labels1 v1 :
  relabel dims_assign axes labels v = (labels1, v1, None) →
  ∃ v2, relabel dims_assign axes labels1 v1 = (labels1, v2, None).
Proof.
  unfold relabel.
  set (spatial_axes := filter (λ a, a ∉ ["batch"; "channel"]) axes).
  destruct (decide (Forall (λ a, a ∉ labels) axes)) as [Hdisjoint|Hshared].
  - destruct (decide (length labels ≤ length spatial_axes + 1)) as [Hlen|];
      [|discriminate].
    destruct (decide (length spatial_axes < length labels)) as [Hmore|Hless];
      intros [= <- <-].
    + destruct (decide (Forall (λ a, a ∉ "channels" :: spatial_axes) axes));
        [|by eexists].
      rewrite decide_True by (simpl; lia).
      rewrite decide_True by (simpl; lia). by eexists.
    + destruct (decide (Forall (λ a, a ∉ spatial_axes) axes)); [|by eexists].
      rewrite decide_True by lia.
      rewrite decide_False by lia. by eexists.
  - intros [= <- <-]. rewrite decide_False by done. by eexists.
Qed.
End SinkExtras.

(** * From the generator to the viewer *)

Section Delivery.
Context {S A T W : Type} (B : Backend S A T W).
Variable dims_assign : list string → list string → list string.
Variable dims_resize : list string → list nat → list string.
Variable format_loss : S → string.

(** What a prediction yields, read back from the yield. *)
Lemma predict_yield_inv (model : option model_spec) (lsds : bool) (fr : frame S)
    (w : W) tr (pred_data : ndarray A) d s' :
  train_affinities B model lsds (ArrayPayload pred_data) (Session (Suspended fr) w tr)
    = (Yielded d, s') →
  ∃ affs,
    d = StepData None None
          [NamedArray affs
             (affinities_meta (fr_offsets fr) (spatial_axes_of (fr_ndim fr))) "image"]
    ∧ ndim affs = fr_ndim fr + 1
    ∧ head (shape affs) = Some (length (fr_offsets fr)).
Proof.
  unfold train_affinities, loop_body. simpl.
  destruct (array_vs_str B pred_data) as [[]|e0]; [|discriminate].
  destruct (bind _ _ _) as [[[fr' d']|e] w'] eqn:Hstep; intros [= <- <-].
  bind_inv Hstep as d0 w0 Hpred. unfold ret in Hstep. simplify_eq.
  unfold predict_step in Hpred.
  bind_inv Hpred as [] w1 Hsave. bind_inv Hpred as affs w2 Hrun.
  bind_inv Hpred as [] w3 Hcheck. unfold ret in Hpred. simplify_eq.
  unfold lift in Hcheck. injection Hcheck as Hcheck _.
  apply check_shapes_Ok in Hcheck as (_ & ? & ?).
  by exists (squeeze affs).
Qed.

(** X12.  A prediction that is yielded and handed to [on_yield] on a viewer
    without a layer "Affinities" (and whose axis labels pass the check of
    line 288) becomes the image layer "Affinities": it holds the affinities,
    one channel per offset, and keeps the offsets as its metadata; both
    progress labels and every other layer are as before. *)
Theorem prediction_reaches_viewer (model : option model_spec) (lsds : bool)
    (fr : frame S) (w : W) tr (pred_data : ndarray A) d s' (ui : widget A) :
  train_affinities B model lsds (ArrayPayload pred_data) (Session (Suspended fr) w tr)
    = (Yielded d, s') →
  layers (widget_viewer ui) !! "Affinities" = None →
  let axes := "channel" :: spatial_axes_of (fr_ndim fr) in
  Exists (λ a, a ∈ axis_labels (widget_viewer ui)) axes
  ∨ length (axis_labels (widget_viewer ui))
    ≤ length (filter (λ a, a ∉ ["batch"; "channel"]) axes) + 1 →
  ∃ ui' l,
    on_yield dims_assign dims_resize format_loss d ui = (ui', None)
    ∧ iterations_widget ui' = iterations_widget ui
    ∧ loss_widget ui' = loss_widget ui
    ∧ layers (widget_viewer ui') !! "Affinities" = Some l
    ∧ layer_type l = "image"
    ∧ ndim (layer_data l) = fr_ndim fr + 1
    ∧ head (shape (layer_data l)) = Some (length (fr_offsets fr))
    ∧ layer_kwargs l !! "metadata" = Some (MOffsets (fr_offsets fr))
    ∧ ∀ n, n ≠ "Affinities" →
           layers (widget_viewer ui') !! n = layers (widget_viewer ui) !! n.
Proof.
  intros Hsend Hfresh axes Hcheck.
  apply predict_yield_inv in Hsend as (affs & -> & Hndim & Hhead).
  set (it := NamedArray affs
               (affinities_meta (fr_offsets fr) (spatial_axes_of (fr_ndim fr)))
               "image").
  destruct (add_layers_fresh_name dims_assign dims_resize it "Affinities" axes
              (widget_viewer ui)) as (v' & Hadd & Hlayers); try done.
  unfold on_yield. simpl. fold it. rewrite Hadd. simpl.
  rewrite decide_True in Hlayers by (by left).
  eexists _, _. split; [done|]. simpl. rewrite Hlayers.
  split_and!; [done | done | by rewrite lookup_insert_eq | done | done | done | |].
  - simpl. unfold affinities_meta.
    rewrite lookup_delete_ne, lookup_delete_ne, lookup_insert_ne by done.
    by rewrite lookup_insert_eq.
  - intros n Hn. by rewrite lookup_insert_ne.
Qed.
End Delivery.

(** * The buttons and the worker *)

Section ButtonFacts.
Context {A : Type}.
Implicit Types (w : model_widget A) (ev : ui_event A).

Lemma set_model_ready m w : ready (set_model (Some m) w).
Proof. unfold ready. simpl. split_and!; try done; by eexists. Qed.

(** One event keeps the widget ready; the only handler that can raise then
    is [predict], when no raw layer is chosen. *)
Lemma handle_ready ev w w' err :
  ready w → handle ev w = (w', err) →
  ready w' ∧ (err = None ∨ err = Some (AttributeError_None "data")).
Proof.
  intros (Hmodel & Hsnap & Hpred & Hsave & Htrain & Hpause) Hev.
  destruct w as [g made calls m lbl [bt bp bs bpr bsv] raw lsds shown].
  simpl in *. subst.
  assert (bp = true → ∃ g', g = Some g') as Hworker by (intros ->; by apply Hpause).
  destruct ev; simpl in Hev;
    unfold pause_training, snapshot, predict_clicked, train, set_model,
      reset_training_state in Hev; simpl in Hev;
    destruct bp; simpl in Hev;
    try (destruct (Hworker eq_refl) as [g' ->]);
    try destruct g; try destruct raw; simpl in Hev; simplify_eq;
    (split; [unfold ready; simpl; split_and!; try done; eauto | eauto]).
Qed.

Lemma handle_all_ready evs : ∀ w w' errs,
  ready w → handle_all evs w = (w', errs) →
  ready w' ∧ Forall (λ e, e = AttributeError_None "data") errs.
Proof.
  induction evs as [|ev evs IH]; intros w w' errs Hready; simpl.
  - intros [= <- <-]. by split.
  - destruct (handle ev w) as [w1 err] eqn:Hev.
    destruct (handle_all evs w1) as [w2 errs2] eqn:Hrest. intros [= <- <-].
    destruct (handle_ready _ _ _ _ Hready Hev) as [Hready1 Herr].
    destruct (IH _ _ _ Hready1 Hrest) as [Hready2 Herrs].
    split; [done|]. destruct Herr as [->| ->]; [done|]. by constructor.
Qed.

(** X13.  From the loading of a model on, whatever the user clicks and
    chooses: a model stays loaded, Snapshot, Predict and Save stay enabled,
    exactly one of Train and Pause is enabled, and Pause is enabled only
    while there is a worker. *)
Theorem buttons_stay_consistent (m : loaded_model) (evs : list (ui_event A)) w0 :
  ready (handle_all evs (set_model (Some m) w0)).1.
Proof.
  destruct (handle_all evs (set_model (Some m) w0)) as [w' errs] eqn:Hall.
  by destruct (handle_all_ready _ _ _ _ (set_model_ready m w0) Hall).
Qed.

(** X14.  From the loading of a model on, no handler reached through an
    enabled button calls a method on a missing worker: the only exception a
    handler raises is the one of [predict] reading [.data] of a raw layer
    that is not chosen. *)
Theorem handlers_only_fail_without_raw (m : loaded_model)
    (evs : list (ui_event A)) w0 :
  Forall (λ e, e = AttributeError_None "data")
    (handle_all evs (set_model (Some m) w0)).2.
Proof.
  destruct (handle_all evs (set_model (Some m) w0)) as [w' errs] eqn:Hall.
  by destruct (handle_all_ready _ _ _ _ (set_model_ready m w0) Hall).
Qed.
End ButtonFacts.

Section WorkerFacts.
Context {A : Type}.
Implicit Types (w : model_widget A) (ev : ui_event A)
  (calls : list (nat * worker_call A)) (c : worker_call A).

Lemma calls_on_app g calls1 calls2 :
  calls_on g (calls1 ++ calls2) = calls_on g calls1 ++ calls_on g calls2.
Proof. unfold calls_on. apply omap_app. Qed.

Lemma calls_on_other g g' c calls :
  g' ≠ g → calls_on g (calls ++ [(g', c)]) = calls_on g calls.
Proof.
  intros Hne. rewrite calls_on_app. unfold calls_on at 2. simpl.
  rewrite decide_False by done. apply app_nil_r.
Qed.

Lemma calls_on_same g c calls :
  calls_on g (calls ++ [(g, c)]) = calls_on g calls ++ [c].
Proof.
  rewrite calls_on_app. unfold calls_on at 2. simpl. by rewrite decide_True.
Qed.

Lemma worker_life_driven (cs : list (worker_call A)) c :
  worker_life true cs → driving c = true → worker_life true (cs ++ [c]).
Proof.
  intros (lsds & middle & -> & Hmid) Hc. exists lsds, (middle ++ [c]).
  rewrite !app_nil_r. split; [done|].
  rewrite forallb_app, Hmid. simpl. by rewrite Hc.
Qed.

Lemma worker_life_quit (cs : list (worker_call A)) :
  worker_life true cs → worker_life false (cs ++ [CallQuit]).
Proof.
  intros (lsds & middle & -> & Hmid). exists lsds, middle.
  by rewrite !app_nil_r.
Qed.

(** Only the worker, the count and the calls matter. *)
Lemma calls_in_order_fields w w' :
  training_generator w' = training_generator w →
  workers_made w' = workers_made w →
  worker_calls w' = worker_calls w →
  calls_in_order w → calls_in_order w'.
Proof. unfold calls_in_order. by intros -> -> ->. Qed.

Lemma call_in_order g c w :
  calls_in_order w → training_generator w = Some g → driving c = true →
  calls_in_order (call g c w).
Proof.
  intros (Hcur & Hlife & Hnone) Hg Hc. unfold calls_in_order. simpl.
  pose proof (Hcur g Hg) as Hlt. split_and!; [done | |].
  - intros g0 Hg0. destruct (decide (g = g0)) as [<-|Hne].
    + rewrite calls_on_same. specialize (Hlife g Hg0).
      rewrite Hg in *. rewrite bool_decide_eq_true_2 in * by done.
      by apply worker_life_driven.
    + rewrite calls_on_other by done. by apply Hlife.
  - intros g0 Hg0. rewrite calls_on_other by lia. by apply Hnone.
Qed.

Lemma start_in_order w :
  calls_in_order w → training_generator w = None →
  calls_in_order (start_training_loop w).
Proof.
  intros (Hcur & Hlife & Hnone) Hg. unfold calls_in_order. simpl.
  split_and!.
  - intros g [= <-]. lia.
  - intros g0 Hg0. rewrite calls_on_app.
    destruct (decide (workers_made w = g0)) as [<-|Hne].
    + rewrite bool_decide_eq_true_2 by done. rewrite Hnone by done.
      unfold calls_on. simpl. rewrite !decide_True by done.
      exists (train_lsds w), []. by simpl.
    + rewrite bool_decide_eq_false_2 by congruence.
      unfold calls_on at 2. simpl. rewrite !decide_False by done.
      rewrite app_nil_r. specialize (Hlife g0). rewrite Hg in Hlife.
      apply Hlife. lia.
  - intros g0 Hg0. rewrite calls_on_app, Hnone by lia.
    unfold calls_on. simpl. rewrite !decide_False by lia. done.
Qed.

Lemma reset_in_order w :
  calls_in_order w → calls_in_order (reset_training_state w).
Proof.
  intros (Hcur & Hlife & Hnone). unfold calls_in_order, reset_training_state.
  destruct (training_generator w) as [g|] eqn:Hg; simpl.
  - pose proof (Hcur g eq_refl) as Hlt. split_and!; [done | |].
    + intros g0 Hg0. destruct (decide (g = g0)) as [<-|Hne].
      * rewrite calls_on_same. specialize (Hlife g Hg0).
        rewrite bool_decide_eq_true_2 in Hlife by done.
        by apply worker_life_quit.
      * rewrite calls_on_other by done. specialize (Hlife g0 Hg0).
        by rewrite bool_decide_eq_false_2 in Hlife by congruence.
    + intros g0 Hg0. rewrite calls_on_other by lia. by apply Hnone.
  - split_and!; [done | | done]. intros g0 Hg0. by apply Hlife.
Qed.

Lemma train_in_order w : calls_in_order w → calls_in_order (train w).
Proof.
  intros Hw. unfold train.
  destruct (training_generator w) as [g|] eqn:Hg.
  - apply (calls_in_order_fields (call g CallResume w)); try done.
    by apply call_in_order.
  - apply (calls_in_order_fields (start_training_loop w)); try done.
    by apply start_in_order.
Qed.

Lemma train_has_worker w : is_Some (training_generator (train w)).
Proof. unfold train. destruct (training_generator w) eqn:Hg; simpl; eauto. Qed.

(** A send followed by a resume on the current worker. *)
Lemma send_resume_in_order g mode w b :
  calls_in_order w → training_generator w = Some g →
  calls_in_order (set_buttons b (call g CallResume (call g (CallSend mode) w))).
Proof.
  intros Hw Hg.
  apply (calls_in_order_fields (call g CallResume (call g (CallSend mode) w)));
    try done.
  apply call_in_order; [|done|done]. by apply call_in_order.
Qed.

Lemma handle_in_order ev w :
  calls_in_order w → calls_in_order (handle ev w).1.
Proof.
  intros Hw. destruct ev; simpl.
  - destruct (train_button _); simpl; [by apply train_in_order | done].
  - destruct (pause_button _); simpl; [|done]. unfold pause_training.
    destruct (training_generator w) as [g|] eqn:Hg; simpl; [|done].
    apply (calls_in_order_fields (call g CallPause w)); try done.
    by apply call_in_order.
  - destruct (snapshot_button _); simpl; [|done]. unfold snapshot.
    destruct (training_generator w) as [g|] eqn:Hg.
    + rewrite Hg. simpl. by apply send_resume_in_order.
    + destruct (train_has_worker w) as [g Hg']. rewrite Hg'. simpl.
      apply send_resume_in_order; [by apply train_in_order | done].
  - destruct (predict_button _); simpl; [|done]. unfold predict_clicked.
    destruct (training_generator w) as [g|] eqn:Hg.
    + rewrite Hg. destruct (train_raw w); simpl; [|done].
      by apply send_resume_in_order.
    + destruct (train_has_worker w) as [g Hg']. rewrite Hg'.
      destruct (train_raw (train w)); simpl; [|by apply train_in_order].
      apply send_resume_in_order; [by apply train_in_order | done].
  - apply (calls_in_order_fields (reset_training_state w)); try done.
    by apply reset_in_order.
  - by apply (calls_in_order_fields w).
  - by apply (calls_in_order_fields w).
Qed.

Lemma handle_all_in_order evs : ∀ w,
  calls_in_order w → calls_in_order (handle_all evs w).1.
Proof.
  induction evs as [|ev evs IH]; intros w Hw; simpl; [done|].
  pose proof (handle_in_order ev w Hw) as H1.
  destruct (handle ev w) as [w1 err]. simpl in H1.
  pose proof (IH w1 H1) as H2.
  by destruct (handle_all evs w1) as [w2 errs].
Qed.

(** X15.  Whatever the user does with a widget that had no worker yet, every
    worker the widget ever made was created, connected to [on_yield] and
    started exactly once, in that order, and was then only resumed, paused
    or sent commands; every worker but the current one was quit, as its last
    call; the current one has not been quit. *)
Theorem workers_are_driven_in_order (raw : option (ndarray A)) (lsds : bool)
    (shown : widget A) (evs : list (ui_event A)) :
  calls_in_order (handle_all evs (blank_widget raw lsds shown)).1.
Proof.
  apply handle_all_in_order. unfold calls_in_order, blank_widget. simpl.
  split_and!; [done | lia | done].
Qed.
End WorkerFacts.

(** * The further properties on the concrete world *)

(** X1 on the concrete world: no model. *)
Lemma failed_start_opens_nothing_witness :
  train_affinities Demo.backend None false NoPayload (new_session Demo.world0)
  = (Raised ValueError_no_model,
     Session Finished Demo.world0 [EvRaise ValueError_no_model])
  ∧ count_enter [EvRaise ValueError_no_model : event float float] = 0.
Proof.
  assert (train_affinities Demo.backend None false NoPayload (new_session Demo.world0)
          = (Raised ValueError_no_model,
             Session Finished Demo.world0 [EvRaise ValueError_no_model])) as Hstart
    by reflexivity.
  split; [exact Hstart|].
  exact (proj1 (proj2 (proj2 (failed_start_opens_nothing Demo.backend None false
                                _ _ _ Hstart)))).
Defined.

(** X2 on the concrete world: a snapshot carries the counter, a prediction
    does not. *)
Lemma yielded_tuple_protocol_witness :
  ∃ d s' fr',
    train_affinities Demo.backend (Some Demo.model) false (StrPayload "snapshot")
      (Demo.primed false) = (Yielded d, s')
    ∧ gen s' = Suspended fr'
    ∧ sd_iteration d = Some 1 ∧ fr_iteration fr' = 1.
Proof.
  destruct (train_affinities Demo.backend (Some Demo.model) false
              (StrPayload "snapshot") (Demo.primed false))
    as [[d|e] s'] eqn:Hsend; [|vm_compute in Hsend; discriminate].
  destruct (yielded_tuple_protocol Demo.backend (Some Demo.model) false _ _ d s' Hsend)
    as (fr' & Hgen & Hshape).
  exists d, s', fr'. split; [done|]. split; [exact Hgen|].
  vm_compute in Hsend. injection Hsend as <- <-.
  simpl in Hgen. injection Hgen as <-. by split.
Defined.

(** X3 on the concrete world: a step, a prediction and a snapshot count two. *)
Lemma counter_counts_training_commands_witness :
  fr_iteration (Frame (offsets Demo.model) 2 false 2 2%float) = 0 + 2.
Proof.
  exact (counter_counts_training_commands Demo.backend (Some Demo.model) false
           [Send NoPayload; Send (ArrayPayload Demo.raw_image);
            Send (StrPayload "snapshot")]
           (Demo.frame0 false) (Demo.open_world false) []
           (Frame (offsets Demo.model) 2 false 2 2%float) eq_refl).
Defined.

(** X4 on the concrete world: after an unknown command nothing runs. *)
Lemma raise_ends_session_witness :
  ∃ s',
    train_affinities Demo.backend (Some Demo.model) false OtherPayload
      (Demo.primed false) = (Raised Exception_unknown_mode, s')
    ∧ gen s' = Finished
    ∧ run Demo.backend (Some Demo.model) false
        [Send NoPayload; Send (StrPayload "snapshot"); Close] s' = s'.
Proof.
  eexists. split; [reflexivity|].
  destruct (raise_ends_session Demo.backend (Some Demo.model) false
              (Demo.frame0 false) (Demo.open_world false) [] OtherPayload
              Exception_unknown_mode _ eq_refl) as (Hgen & _ & _ & Hrun).
  split; [exact Hgen | apply Hrun].
Defined.

(** X5 on the concrete world: the pipeline serves two arrays. *)
Lemma short_batch_raises_witness :
  train_affinities Demo.starved_backend (Some Demo.model) false NoPayload
    (Demo.primed false)
  = (Raised ValueError_unpack,
     Session Finished (Demo.DemoWorld false 1 0 false)
       [EvExit; EvRaise ValueError_unpack]).
Proof.
  exact (short_batch_raises Demo.starved_backend (Some Demo.model) false
           (Demo.frame0 false) (Demo.open_world false) [] NoPayload false
           (take 2 (Demo.batch false)) [] (Demo.DemoWorld false 1 0 true)
           eq_refl eq_refl (or_introl (le_n 3))).
Defined.

(** X6 on the concrete world: the first array named "X" makes the layer. *)
Lemma add_layers_new_name_witness :
  ∃ v',
    add_layers Demo.dims_assign Demo.dims_resize [Demo.two_samples] Demo.empty_viewer
    = (v', None)
    ∧ layer_data <$> layers v' !! "X" = Some (na_data Demo.two_samples).
Proof.
  destruct (add_layers_new_name (A:=float) Demo.dims_assign Demo.dims_resize
              Demo.two_samples "X" ["batch"; "y"; "x"] Demo.empty_viewer
              eq_refl eq_refl eq_refl)
    as (v' & Hadd & Hlayers).
  { right. vm_compute. lia. }
  exists v'. split; [exact Hadd|]. rewrite Hlayers. reflexivity.
Defined.

(** X7 on the concrete world: a nameless array after a good one. *)
Lemma add_layers_stops_at_missing_key_witness :
  ∃ v1 key,
    add_layers Demo.dims_assign Demo.dims_resize
      ([Demo.two_samples] ++ Demo.nameless :: [Demo.three_samples]) Demo.empty_viewer
    = (v1, Some (KeyError key))
    ∧ layer_data <$> layers v1 !! "X" = Some (na_data Demo.two_samples).
Proof.
  destruct (add_layers Demo.dims_assign Demo.dims_resize [Demo.two_samples]
              Demo.empty_viewer) as [v1 err] eqn:Hfirst.
  assert (err = None) as -> by (vm_compute in Hfirst; by injection Hfirst).
  destruct (add_layers_stops_at_missing_key (A:=float) Demo.dims_assign
              Demo.dims_resize [Demo.two_samples] [Demo.three_samples]
              Demo.nameless Demo.empty_viewer v1 Hfirst (or_introl eq_refl))
    as (key & Hall).
  exists v1, key. split; [exact Hall|].
  vm_compute in Hfirst. injection Hfirst as <-. reflexivity.
Defined.

(** X8 on the concrete world: the layer "X" keeps its kind when three more
    samples arrive. *)
Lemma add_layers_keeps_layers_witness :
  ∃ v' err l',
    add_layers Demo.dims_assign Demo.dims_resize [Demo.three_samples]
      Demo.viewer_two_samples = (v', err)
    ∧ layers v' !! "X" = Some l' ∧ layer_type l' = "image".
Proof.
  destruct (add_layers Demo.dims_assign Demo.dims_resize [Demo.three_samples]
              Demo.viewer_two_samples) as [v' err] eqn:Hadd.
  destruct (add_layers_keeps_layers (A:=float) Demo.dims_assign Demo.dims_resize
              [Demo.three_samples] Demo.viewer_two_samples v' err "X"
              (Layer (NDArray [2; 1; 2] [1; 2; 3; 4]%float) "image" ∅)
              Hadd eq_refl) as (l' & Hl' & Htype & _).
  by exists v', err, l'.
Defined.

(** X9 on the concrete world: four elements and six make ten. *)
Lemma concatenation_conserves_elements_witness :
  ∃ v' err l',
    add_layers Demo.dims_assign Demo.dims_resize [Demo.three_samples]
      Demo.viewer_two_samples = (v', err)
    ∧ layers v' !! "X" = Some l'
    ∧ well_formed (layer_data l')
    ∧ size (layer_data l') = 4 + 6.
Proof.
  destruct (concatenation_conserves_elements (A:=float) Demo.dims_assign
              Demo.dims_resize Demo.three_samples "X" ["batch"; "y"; "x"]
              (Layer (NDArray [2; 1; 2] [1; 2; 3; 4]%float) "image" ∅)
              Demo.viewer_two_samples eq_refl eq_refl eq_refl)
    as (v' & err & l' & Hadd & Hl' & Hwf & Hsize & _);
    try reflexivity.
  - left. apply Exists_cons_hd. by left.
  - vm_compute. discriminate.
  - by exists v', err, l'.
Defined.

(** X10 on the concrete world: a second prediction is piled on the first. *)
Lemma stacking_without_batch_axis_witness :
  ∃ v' err,
    add_layers Demo.dims_assign Demo.dims_resize [Demo.affinities_item]
      Demo.viewer_one_prediction = (v', err)
    ∧ shape <$> (layer_data <$> layers v' !! "Affinities") = Some [2; 2; 2; 2].
Proof.
  destruct (stacking_without_batch_axis (A:=float) Demo.dims_assign
              Demo.dims_resize Demo.affinities_item "Affinities"
              ["channel"; "y"; "x"]
              (Layer (NDArray [2; 2; 2] (replicate 8 1%float)) "image" ∅)
              Demo.viewer_one_prediction 1 eq_refl eq_refl)
    as (v' & err & Hadd & Hdata); try reflexivity.
  - intros Hin. by repeat (apply elem_of_cons in Hin as [|Hin]; [done|]);
      apply elem_of_nil in Hin.
  - left. apply Exists_cons_tl, Exists_cons_hd. apply elem_of_cons. right.
    by left.
  - vm_compute. discriminate.
  - exists v', err. split; [exact Hadd|]. by rewrite Hdata.
Defined.

(** X11 on the concrete world: the numbered labels of a new viewer become
    [y] and [x] and stay so. *)
Lemma relabel_settles_witness :
  ∃ v2,
    relabel (A:=float) Demo.dims_assign ["batch"; "y"; "x"] ["y"; "x"]
      (set_axis_labels Demo.dims_assign ["y"; "x"] Demo.empty_viewer)
    = (["y"; "x"], v2, None).
Proof.
  exact (relabel_settles (A:=float) Demo.dims_assign ["batch"; "y"; "x"]
           ["0"; "1"] Demo.empty_viewer ["y"; "x"] _ eq_refl).
Defined.

(** X12 on the concrete world: the prediction of the 2x2 image on a new
    viewer. *)
Lemma prediction_reaches_viewer_witness :
  ∃ d s' ui' l,
    train_affinities Demo.backend (Some Demo.model) false
      (ArrayPayload Demo.raw_image) (Demo.primed false) = (Yielded d, s')
    ∧ on_yield Demo.dims_assign Demo.dims_resize Demo.format_loss d
        (Widget "3" "0.5" Demo.empty_viewer) = (ui', None)
    ∧ iterations_widget ui' = "3"
    ∧ layers (widget_viewer ui') !! "Affinities" = Some l
    ∧ head (shape (layer_data l)) = Some 2.
Proof.
  destruct (train_affinities Demo.backend (Some Demo.model) false
              (ArrayPayload Demo.raw_image) (Demo.primed false))
    as [[d|e] s'] eqn:Hsend; [|vm_compute in Hsend; discriminate].
  destruct (prediction_reaches_viewer Demo.backend Demo.dims_assign
              Demo.dims_resize Demo.format_loss (Some Demo.model) false
              (Demo.frame0 false) (Demo.open_world false) [] Demo.raw_image d s'
              (Widget "3" "0.5" Demo.empty_viewer) Hsend eq_refl)
    as (ui' & l & Hyield & Hit & _ & Hl & _ & _ & Hhead & _).
  { right. vm_compute. lia. }
  by exists d, s', ui', l.
Defined.

(** X13, X14 and X15 on the concrete world: an afternoon at the buttons. *)
Lemma buttons_stay_consistent_witness :
  ready (handle_all (drop 1 Demo.clicks) (set_model (Some Demo.two_offsets) Demo.blank)).1.
Proof. exact (buttons_stay_consistent Demo.two_offsets (drop 1 Demo.clicks) Demo.blank). Defined.

Lemma handlers_only_fail_without_raw_witness :
  Forall (λ e, e = AttributeError_None "data")
    (handle_all (drop 1 Demo.clicks) (set_model (Some Demo.two_offsets) Demo.blank)).2.
Proof.
  exact (handlers_only_fail_without_raw Demo.two_offsets (drop 1 Demo.clicks)
           Demo.blank).
Defined.

Lemma workers_are_driven_in_order_witness :
  calls_in_order (handle_all Demo.clicks Demo.blank).1.
Proof.
  exact (workers_are_driven_in_order (Some Demo.raw_image) false
           (Widget "None" "nan" Demo.empty_viewer) Demo.clicks).
Defined.

Example clicks_make_two_workers :
  let w := (handle_all Demo.clicks Demo.blank).1 in
  training_generator w = Some 1
  ∧ calls_on 0 (worker_calls w)
    = [CallCreate false; CallConnect; CallStart; CallPause;
       CallSend (StrPayload "snapshot"); CallResume; CallQuit]
  ∧ calls_on 1 (worker_calls w)
    = [CallCreate false; CallConnect; CallStart;
       CallSend (ArrayPayload Demo.raw_image); CallResume]
  ∧ (handle_all Demo.clicks Demo.blank).2
    = [AttributeError_None "data"; AttributeError_None "data"].
Proof. vm_compute. done. Qed.

Section Progress.
Context {S A T W : Type} (B : Backend S A T W).
Variable dims_assign : list string → list string → list string.
Variable dims_resize : list string → list nat → list string.
Variable format_loss : S → string.

(** X16.  What a plain resumption yields is what the labels show: after
    [on_yield] the iteration label is the generator's counter in decimal and
    the loss label is its loss, formatted; the viewer is not touched.  This
    holds for the priming resumption (0 and nan) as for every training
    step. *)
Theorem progress_reaches_labels (model : option model_spec) (lsds : bool)
    (s : session S A W) d s' (ui : widget A) :
  train_affinities B model lsds NoPayload s = (Yielded d, s') →
  ∃ fr',
    gen s' = Suspended fr'
    ∧ on_yield dims_assign dims_resize format_loss d ui
      = (Widget (pretty (fr_iteration fr')) (format_loss (fr_loss fr'))
           (widget_viewer ui), None).
Proof.
  unfold train_affinities. destruct (gen s) as [|fr|].
  - destruct (prologue B model lsds (world s)) as [[fr|e] w']; intros [= <- <-].
    by exists fr.
  - unfold loop_body. simpl.
    destruct (train_step B fr false (world s)) as [[[fr' d']|e] w'] eqn:Hstep;
      intros [= <- <-].
    apply train_step_Ok in Hstep as (?&?&?&?&?&?&?&loss&?&?&?&_&_&_&_&->&->).
    by eexists.
  - discriminate.
Qed.
End Progress.

(** X16 on the concrete world: the first training step shows "1". *)
Lemma progress_reaches_labels_witness :
  ∃ d s' ui',
    train_affinities Demo.backend (Some Demo.model) false NoPayload
      (Demo.primed false) = (Yielded d, s')
    ∧ on_yield Demo.dims_assign Demo.dims_resize Demo.format_loss d
        (Widget "None" "nan" Demo.empty_viewer) = (ui', None)
    ∧ iterations_widget ui' = "1".
Proof.
  destruct (train_affinities Demo.backend (Some Demo.model) false NoPayload
              (Demo.primed false)) as [[d|e] s'] eqn:Hsend;
    [|vm_compute in Hsend; discriminate].
  destruct (progress_reaches_labels Demo.backend Demo.dims_assign Demo.dims_resize
              Demo.format_loss (Some Demo.model) false _ d s'
              (Widget "None" "nan" Demo.empty_viewer) Hsend)
    as (fr' & Hgen & Hyield).
  eexists d, s', _. split; [done|]. split; [exact Hyield|].
  vm_compute in Hsend. injection Hsend as <- <-.
  simpl in Hgen. injection Hgen as <-. reflexivity.
Defined.
